(** * automl_utils.dataloader.spec: configuration lookup and dataloader factory

  A shallow embedding of [src/automl_utils/dataloader/spec.py]:
  the [Phase] and [Split] enumerations, the validated [BatchConfig]
  dataclass and the abstract base class [DataloaderSpec] with its
  constructor, its two read operations and the [get_dataloader] factory.

  Python objects that the module only passes around (callables, torch
  datasets and dataloaders, the textual rendering of a float) are
  parameters of the development; everything the module itself computes
  is a Rocq function that evaluates. *)

From Stdlib Require Import ZArith Floats.SpecFloat.
From stdpp Require Import base option list gmap strings pretty countable.

Open Scope Z_scope.

(** ** Python values, equality and formatting *)

Module Py.

(** The exceptions that can travel through this module.  [ValueError] is
    the only one the module raises itself; [KeyError] and
    [AttributeError] are what a failed dictionary subscript and a read of
    an unset attribute raise; the others come from collaborators. *)
Inductive exn : Type :=
| ValueError (msg : string)
| KeyError (key : string)
| AttributeError (name : string)
| NotImplementedError
| TypeError (msg : string)
| OtherError (name msg : string).

(** A call either returns a value or raises. *)
Inductive result (A : Type) : Type :=
| Ok (a : A)
| Raise (e : exn).
Arguments Ok {A} a.
Arguments Raise {A} e.

Definition bind {A B : Type} (r : result A) (k : A → result B) : result B :=
  match r with
  | Ok a => k a
  | Raise e => Raise e
  end.

Definition is_Ok {A : Type} (r : result A) : Prop := ∃ a, r = Ok a.

(** Python floats are IEEE 754 binary64 numbers; [spec_float] is the
    Standard Library's specification of them. *)
Definition float : Type := spec_float.

Definition float_zero : float := S754_zero false.
Definition float_one : float := S754_finite false 4503599627370496 (-52).

(** The values that travel as keyword options ([**kwargs] is typed
    [Any]): [None], booleans, integers, floats and strings. *)
Inductive value : Type :=
| VNone
| VBool (b : bool)
| VInt (n : Z)
| VFloat (x : float)
| VStr (s : string).

Definition int_of_bool (b : bool) : Z := if b then 1 else 0.

(** [x == n] for a float [x] and an integer [n]: Python compares the
    exact mathematical values. *)
Definition float_eq_int (x : float) (n : Z) : bool :=
  match x with
  | S754_zero _ => n =? 0
  | S754_finite s m e =>
      let v := if s then Z.neg m else Z.pos m in
      if 0 <=? e then v * 2 ^ e =? n else v =? n * 2 ^ (- e)
  | S754_infinity _ | S754_nan => false
  end.

(** Python's [==] on these values.  [bool] is a subclass of [int], and
    numbers of different types compare by value. *)
Definition eq (v w : value) : bool :=
  match v, w with
  | VNone, VNone => true
  | VBool a, VBool b => int_of_bool a =? int_of_bool b
  | VBool a, VInt n | VInt n, VBool a => int_of_bool a =? n
  | VBool a, VFloat x | VFloat x, VBool a => float_eq_int x (int_of_bool a)
  | VInt m, VInt n => m =? n
  | VInt n, VFloat x | VFloat x, VInt n => float_eq_int x n
  | VFloat x, VFloat y => SFeqb x y
  | VStr s, VStr t => bool_decide (s = t)
  | _, _ => false
  end.

(** Python's [!=]: for all these types it is the negation of [==]. *)
Definition ne (v w : value) : bool := negb (eq v w).

(** [str(n)] for an integer: decimal digits, a leading [-] when negative. *)
Definition str_int (n : Z) : string := pretty n.

End Py.

Import Py.

Global Instance result_ret : MRet result := @Ok.
Global Instance result_bind : MBind result := λ A B k r, Py.bind r k.

(** ** The enumerations *)

Inductive Phase : Type := SEARCH | EVAL.
Inductive Split : Type := TRAIN | VAL.

Global Instance Phase_eq_dec : EqDecision Phase.
Proof. solve_decision. Defined.
Global Instance Split_eq_dec : EqDecision Split.
Proof. solve_decision. Defined.

Global Instance Phase_countable : Countable Phase.
Proof.
  refine (inj_countable' (λ p, match p with SEARCH => true | EVAL => false end)
                         (λ b : bool, if b then SEARCH else EVAL) _).
  by intros [].
Defined.
Global Instance Split_countable : Countable Split.
Proof.
  refine (inj_countable' (λ s, match s with TRAIN => true | VAL => false end)
                         (λ b : bool, if b then TRAIN else VAL) _).
  by intros [].
Defined.

(** Iterating over an enum class yields its members in definition order. *)
Definition Phase_members : list Phase := [SEARCH; EVAL].
Definition Split_members : list Split := [TRAIN; VAL].


(** ** The external collaborators

  Callables are opaque: the module stores and forwards them and never
  calls one.  Of a torch dataset the module observes only its truth
  value, which Python derives from [__len__] when the class defines it
  ([dataset_len] is [None] for a dataset class without [__len__], such as
  an iterable-style dataset).  [DataLoader_new] is the constructor
  [tud.DataLoader(dset, **kwargs)], which may raise.  [str_float] is the
  text Python prints for a float. *)
Class Torch : Type := {
  Callable : Type;
  Dataset : Type;
  DataLoader : Type;
  dataset_len : Dataset → option N;
  DataLoader_new : Dataset → gmap string value → result DataLoader;
  str_float : float → string;
}.

Section Model.
Context `{torch : Torch}.

(** [str(v)], as an f-string renders a value. *)
Definition str (v : value) : string :=
  match v with
  | VNone => "None"
  | VBool b => if b then "True" else "False"
  | VInt n => str_int n
  | VFloat x => str_float x
  | VStr s => s
  end.

(** *** BatchConfig *)

Record BatchConfig : Type := {
  batch_size : Z;
  input_transform : option Callable;
  target_transform : option Callable;
}.

Definition __post_init__ (self : BatchConfig) : result () :=
  if batch_size self <=? 0 then
    Raise (ValueError ("`batch_size` must be > 0. Received value of "
                       +:+ str_int (batch_size self) +:+ "."))
  else Ok ().

(** The call [BatchConfig(batch_size, input_transform, target_transform)]:
    the generated initialiser stores the three fields, then runs
    [__post_init__]. *)
Definition new_BatchConfig (batch_size : Z)
    (input_transform target_transform : option Callable) : result BatchConfig :=
  let self := {| batch_size := batch_size;
                 input_transform := input_transform;
                 target_transform := target_transform |} in
  _ ← __post_init__ self; Ok self.

(** *** DataloaderSpec: the instance and its methods *)

(** The instance dictionary of a [DataloaderSpec]: an attribute is [None]
    until [__init__] has assigned it. *)
Record object : Type := {
  _search_split : option float;
  _config_map : option (gmap (Phase * Split) BatchConfig);
}.

Definition fresh : object := {| _search_split := None; _config_map := None |}.

(** The three abstract operations a concrete subclass supplies.
    [load_dataset] is an instance method and may read [self]; the two
    defaults are static.  Its [search_split] parameter is [None] when the
    caller passes none, the default of the abstract signature. *)
Class Reference : Type := {
  load_dataset :
    object → Phase → Split → string → option Callable → option Callable →
    option float → bool → result (option Dataset);
  get_default_config : Phase → Split → result BatchConfig;
  get_default_search_split : result float;
}.

Context `{reference : Reference}.

(** The calls a method makes to its collaborators, as they are made:
    [load_dataset] with its positional arguments, [download] and the
    unpacked [**ds_args]; the dataloader constructor with the dataset and
    the unpacked [**kwargs]. *)
Inductive call : Type :=
| Call_load_dataset (phase : Phase) (split : Split) (path : string)
    (input_transform target_transform : option Callable) (download : bool)
    (ds_args : gmap string float)
| Call_DataLoader (dset : Dataset) (kwargs : gmap string value).

(** What running a method on an instance yields: the returned value or
    the exception raised, the instance afterwards, and the calls made. *)
Record outcome (A : Type) : Type := Outcome {
  returned : result A;
  self_after : object;
  calls : list call;
}.
Arguments Outcome {A} _ _ _.
Arguments returned {A} _.
Arguments self_after {A} _.
Arguments calls {A} _.

Definition method (A : Type) : Type := object → outcome A.

Definition ret {A : Type} (a : A) : method A := λ self, Outcome (Ok a) self [].

Definition raise {A : Type} (e : exn) : method A := λ self, Outcome (Raise e) self [].

Definition seq {A B : Type} (m : method A) (k : A → method B) : method B :=
  λ self,
    match m self with
    | Outcome (Ok a) self' cs =>
        match k a self' with
        | Outcome r self'' cs' => Outcome r self'' (cs ++ cs')
        end
    | Outcome (Raise e) self' cs => Outcome (Raise e) self' cs
    end.

Global Instance method_ret : MRet method := @ret.
Global Instance method_bind : MBind method := λ A B k m, seq m k.

(** A static call: it neither reads nor writes the instance. *)
Definition static {A : Type} (r : result A) : method A := λ self, Outcome r self [].

(** [self.name], for the two attributes. *)
Definition getattr {A : Type} (name : string) (field : object → option A) : method A :=
  λ self,
    match field self with
    | Some a => Outcome (Ok a) self []
    | None => Outcome (Raise (AttributeError name)) self []
    end.

(** [self._search_split = x] and [self._config_map = m]. *)
Definition set_search_split (x : float) : method () :=
  λ self, Outcome (Ok ()) {| _search_split := Some x; _config_map := _config_map self |} [].

Definition set_config_map (m : gmap (Phase * Split) BatchConfig) : method () :=
  λ self, Outcome (Ok ()) {| _search_split := _search_split self; _config_map := Some m |} [].

(** [self._config_map[key] = cfg]. *)
Definition setitem_config_map (key : Phase * Split) (cfg : BatchConfig) : method () :=
  m ← getattr "_config_map" _config_map;
  set_config_map (<[key := cfg]> m).

(** A [for] loop over a list. *)
Fixpoint for_each {A : Type} (l : list A) (body : A → method ()) : method () :=
  match l with
  | [] => ret ()
  | a :: l' => body a;; for_each l' body
  end.

(** [config_map or {}]: [None] and the empty mapping are both falsy. *)
Definition or_empty (config_map : option (gmap (Phase * Split) BatchConfig))
    : gmap (Phase * Split) BatchConfig :=
  match config_map with
  | Some m => if decide (m = ∅) then ∅ else m
  | None => ∅
  end.

(** The body of the two loops of [__init__], for one slot. *)
Definition init_slot (config_map : gmap (Phase * Split) BatchConfig)
    (p : Phase) (s : Split) : method () :=
  match config_map !! (p, s) with
  | Some cfg => setitem_config_map (p, s) cfg
  | None => cfg ← static (get_default_config p s); setitem_config_map (p, s) cfg
  end.

Definition __init__ (search_split : option float)
    (config_map : option (gmap (Phase * Split) BatchConfig)) : method () :=
  search_split ←
    match search_split with
    | None => static get_default_search_split
    | Some x =>
        if SFltb x float_zero || SFltb float_one x then
          raise (ValueError ("`search_split` must be between 0 and 1 inclusive, received "
                             +:+ str_float x))
        else ret x
    end;
  set_search_split search_split;;
  set_config_map ∅;;
  let config_map := or_empty config_map in
  for_each Phase_members (λ p,
    for_each Split_members (λ s, init_slot config_map p s)).

(** The call [Sub(search_split, config_map)] of a concrete subclass: a
    fresh instance is initialised and returned unless [__init__] raises. *)
Definition new_DataloaderSpec (search_split : option float)
    (config_map : option (gmap (Phase * Split) BatchConfig)) : result object :=
  let o := __init__ search_split config_map fresh in
  _ ← returned o; Ok (self_after o).

Definition key_repr (key : Phase * Split) : string :=
  "(" +:+ (match key.1 with SEARCH => "<Phase.SEARCH: 'search'>" | EVAL => "<Phase.EVAL: 'eval'>" end)
  +:+ ", " +:+ (match key.2 with TRAIN => "<Split.TRAIN: 'train'>" | VAL => "<Split.VAL: 'val'>" end)
  +:+ ")".

Definition get_config (phase : Phase) (split : Split) : method BatchConfig :=
  m ← getattr "_config_map" _config_map;
  match m !! (phase, split) with
  | Some cfg => ret cfg
  | None => raise (KeyError (key_repr (phase, split)))
  end.

Definition search_split : method float := getattr "_search_split" _search_split.

(** The truth value of [dset]: [None] is falsy, and so is a dataset whose
    class defines [__len__] and whose length is zero. *)
Definition truthy (dset : option Dataset) : bool :=
  match dset with
  | None => false
  | Some d => match dataset_len d with Some 0%N => false | _ => true end
  end.

(** The call [self.load_dataset(phase, split, path, input_transform,
    target_transform, download=download, **ds_args)]. *)
Definition call_load_dataset (phase : Phase) (split : Split) (path : string)
    (input_transform target_transform : option Callable) (download : bool)
    (ds_args : gmap string float) : method (option Dataset) :=
  λ self,
    Outcome
      (load_dataset self phase split path input_transform target_transform
         (ds_args !! "search_split") download)
      self
      [Call_load_dataset phase split path input_transform target_transform download ds_args].

(** The call [tud.DataLoader(dset, **kwargs)]. *)
Definition call_DataLoader (dset : Dataset) (kwargs : gmap string value) : method DataLoader :=
  λ self, Outcome (DataLoader_new dset kwargs) self [Call_DataLoader dset kwargs].

Definition get_dataloader (phase : Phase) (split : Split) (path : string)
    (download : bool) (kwargs : gmap string value) : method (option DataLoader) :=
  config ← get_config phase split;
  ds_args ←
    (if decide (phase = SEARCH)
     then x ← search_split; ret ({[ "search_split" := x ]} : gmap string float)
     else ret ∅);
  dset ← call_load_dataset phase split path
           (input_transform config) (target_transform config) download ds_args;
  if negb (truthy dset) then ret None
  else
    (match kwargs !! "batch_size" with
     | Some v =>
         if Py.ne v (VInt (batch_size config)) then
           raise (ValueError ("`batch_size` specified in kwargs (" +:+ str v
                              +:+ ") does not match `BatchConfig.batch_size` ("
                              +:+ str_int (batch_size config) +:+ ")."))
         else ret ()
     | None => ret ()
     end);;
    (* [{"batch_size": config.batch_size, **(kwargs or {})}]: an entry of
       [kwargs] replaces the one written before it. *)
    let kwargs := kwargs ∪ {[ "batch_size" := VInt (batch_size config) ]} in
    match dset with
    | Some d => dl ← call_DataLoader d kwargs; ret (Some dl)
    | None => ret None (* not reached: [None] is falsy *)
    end.

(** *** Sequences of public operations *)

(** A caller's use of an instance after construction. *)
Inductive op : Type :=
| Op_get_config (phase : Phase) (split : Split)
| Op_search_split
| Op_get_dataloader (phase : Phase) (split : Split) (path : string)
    (download : bool) (kwargs : gmap string value).

(** The instance after one operation, whether it returned or raised. *)
Definition run_op (o : op) (self : object) : object :=
  match o with
  | Op_get_config phase split => self_after (get_config phase split self)
  | Op_search_split => self_after (search_split self)
  | Op_get_dataloader phase split path download kwargs =>
      self_after (get_dataloader phase split path download kwargs self)
  end.

Definition run_ops (ops : list op) (self : object) : object :=
  foldl (λ self o, run_op o self) self ops.

(** *** Vocabulary for the statements *)

(** The entry a caller supplied for a slot, if any. *)
Definition override (config_map : option (gmap (Phase * Split) BatchConfig))
    (phase : Phase) (split : Split) : option BatchConfig :=
  m ← config_map; m !! (phase, split).

(** The config that construction resolves for a slot: the caller's
    entry, or else what the subclass's default returns or raises. *)
Definition slot_config (config_map : option (gmap (Phase * Split) BatchConfig))
    (phase : Phase) (split : Split) : result BatchConfig :=
  match override config_map phase split with
  | Some cfg => Ok cfg
  | None => get_default_config phase split
  end.

(** The split that construction stores: the caller's value once it has
    passed the range test, or else what the subclass's default returns
    or raises. *)
Definition resolved_split (search_split : option float) : result float :=
  match search_split with
  | None => get_default_search_split
  | Some x =>
      if SFltb x float_zero || SFltb float_one x then
        Raise (ValueError ("`search_split` must be between 0 and 1 inclusive, received "
                           +:+ str_float x))
      else Ok x
  end.

(** The instance that construction builds from a resolved split and
    the four resolved configs, or the first exception on the way. *)
Definition constructed (search_split : option float)
    (config_map : option (gmap (Phase * Split) BatchConfig)) : result object :=
  x ← resolved_split search_split;
  c1 ← slot_config config_map SEARCH TRAIN;
  c2 ← slot_config config_map SEARCH VAL;
  c3 ← slot_config config_map EVAL TRAIN;
  c4 ← slot_config config_map EVAL VAL;
  Ok {| _search_split := Some x;
        _config_map := Some (<[(EVAL, VAL) := c4]> (<[(EVAL, TRAIN) := c3]>
                            (<[(SEARCH, VAL) := c2]> (<[(SEARCH, TRAIN) := c1]> ∅)))) |}.

(** The [**ds_args] that [get_dataloader] builds for a phase. *)
Definition ds_args_for (phase : Phase) (x : float) : gmap string float :=
  if decide (phase = SEARCH) then {[ "search_split" := x ]} else ∅.

Definition is_Call_DataLoader (c : call) : bool :=
  match c with Call_DataLoader _ _ => true | _ => false end.

(** A method that leaves the instance as it found it, whatever it
    returns or raises. *)
Definition read_only {A : Type} (m : method A) : Prop :=
  ∀ self, self_after (m self) = self.

End Model.

Arguments Outcome {_ A} _ _ _.
Arguments returned {_ A} _.
Arguments self_after {_ A} _.
Arguments calls {_ A} _.

(** ** The abstract base

  The bodies the base class gives its three abstract operations: each
  raises [NotImplementedError].  This is what a subclass gets when its
  override delegates to the base class. *)

Section Abstract.
Context `{torch : Torch}.

Definition abstract_base : Reference := {|
  load_dataset := λ _ _ _ _ _ _ _ _, Raise NotImplementedError;
  get_default_config := λ _ _, Raise NotImplementedError;
  get_default_search_split := Raise NotImplementedError;
|}.

End Abstract.

(** ** A concrete reference implementation

  A small subclass in the style of the published search spaces the
  module is written for, used to run the model on concrete inputs. *)

Module Cifar.

(** A map-style dataset has a length; an iterable-style one has none. *)
Inductive dataset : Type :=
| MapStyle (samples : list Z)
| IterableStyle (source : string).

Record dataloader : Type := {
  dl_dataset : dataset;
  dl_kwargs : gmap string value;
}.

Definition render_float (x : float) : string :=
  match x with
  | S754_nan => "nan"
  | S754_infinity s => if s then "-inf" else "inf"
  | S754_zero s => if s then "-0.0" else "0.0"
  | S754_finite s m e =>
      (if s then "-" else "") +:+ pretty (Z.pos m) +:+ "*2**" +:+ pretty e
  end.

#[export] Instance torch : Torch := {|
  Callable := string;
  Dataset := dataset;
  DataLoader := dataloader;
  dataset_len := λ d, match d with
                      | MapStyle samples => Some (N.of_nat (length samples))
                      | IterableStyle _ => None
                      end;
  DataLoader_new := λ d kwargs,
    if decide (is_Some (kwargs !! "dataset"))
    then Raise (TypeError "got multiple values for argument 'dataset'")
    else Ok {| dl_dataset := d; dl_kwargs := kwargs |};
  str_float := render_float;
|}.

(** 0.5, 0.75 and 5.0 as binary64 numbers. *)
Definition half : float := S754_finite false 4503599627370496 (-53).
Definition three_quarters : float := S754_finite false 6755399441055744 (-53).
Definition five : float := S754_finite false 5629499534213120 (-50).
Definition minus_half : float := S754_finite true 4503599627370496 (-53).

(** The training set is split at [search_split] during search; with the
    whole training set used for training the search validation set is
    absent.  The evaluation validation set is held out and is empty here. *)
Definition cifar_load (self : object) (phase : Phase) (split : Split) (path : string)
    (input_transform target_transform : option string)
    (search_split : option float) (download : bool) : result (option dataset) :=
  match phase, split with
  | SEARCH, TRAIN =>
      match search_split with
      | Some _ => Ok (Some (MapStyle [3; 1; 4; 1; 5]))
      | None => Raise (ValueError "search_split is required in the search phase")
      end
  | SEARCH, VAL =>
      match search_split with
      | Some x => if SFeqb x float_one then Ok None else Ok (Some (MapStyle [9; 2; 6]))
      | None => Raise (ValueError "search_split is required in the search phase")
      end
  | EVAL, TRAIN => Ok (Some (MapStyle [3; 1; 4; 1; 5; 9; 2; 6]))
  | EVAL, VAL => Ok (Some (MapStyle []))
  end.

Definition cifar_default_config (phase : Phase) (split : Split) : result BatchConfig :=
  match phase with
  | SEARCH => new_BatchConfig 64 (Some "crop_flip_normalize") None
  | EVAL => new_BatchConfig 96 (Some "crop_flip_cutout_normalize") None
  end.

#[export] Instance reference : Reference := {|
  load_dataset := cifar_load;
  get_default_config := cifar_default_config;
  get_default_search_split := Ok half;
|}.

(** The same subclass with a default split outside [0, 1]. *)
Definition skewed : Reference := {|
  load_dataset := cifar_load;
  get_default_config := cifar_default_config;
  get_default_search_split := Ok five;
|}.

(** The override of the scenario: batch size 32, no transforms. *)
Definition config32 : BatchConfig :=
  {| batch_size := 32; input_transform := None; target_transform := None |}.

Definition overrides : gmap (Phase * Split) BatchConfig :=
  {[ (SEARCH, TRAIN) := config32; (EVAL, VAL) := config32 ]}.

(** The two default configs, as stored. *)
Definition search_config : BatchConfig :=
  {| batch_size := 64; input_transform := Some "crop_flip_normalize";
     target_transform := None |}.

Definition eval_config : BatchConfig :=
  {| batch_size := 96; input_transform := Some "crop_flip_cutout_normalize";
     target_transform := None |}.

(** The instance [Cifar(config_map=overrides)], spelled out. *)
Definition spec : object := {|
  _search_split := Some half;
  _config_map := Some (<[(EVAL, VAL) := config32]>
                      (<[(EVAL, TRAIN) := eval_config]>
                      (<[(SEARCH, VAL) := search_config]>
                      (<[(SEARCH, TRAIN) := config32]> ∅))));
|}.

(** The instance [Cifar(search_split=1.0, config_map=overrides)]: the
    whole training set is used for training during search. *)
Definition spec_all_train : object := {|
  _search_split := Some float_one;
  _config_map := _config_map spec;
|}.


End Cifar.

(** ** Two variations of the concrete subclass *)

Module Variations.
Import Cifar.

(** The same subclass on a machine without the data: unless asked to
    download, [load_dataset] raises. *)
Definition offline_load (self : object) (phase : Phase) (split : Split) (path : string)
    (input_transform target_transform : option string)
    (search_split : option float) (download : bool) : result (option dataset) :=
  if download
  then cifar_load self phase split path input_transform target_transform search_split download
  else Raise (OtherError "FileNotFoundError" path).

Definition offline : Reference := {|
  load_dataset := offline_load;
  get_default_config := cifar_default_config;
  get_default_search_split := Ok half;
|}.

(** An override of all four slots. *)
Definition all_slots : gmap (Phase * Split) BatchConfig :=
  {[ (SEARCH, TRAIN) := config32; (SEARCH, VAL) := config32;
     (EVAL, TRAIN) := eval_config; (EVAL, VAL) := config32 ]}.

End Variations.

(** ** Properties *)

Section Properties.
Context `{torch : Torch} `{reference : !Reference}.

Implicit Types (self : object) (phase : Phase) (split : Split)
  (cfg : BatchConfig) (x : float) (kwargs : gmap string value).

(** *** Validation of a batch size *)

Lemma str_int_inj (m n : Z) : str_int m = str_int n → m = n.
Proof. unfold str_int. apply (inj pretty). Qed.

Lemma new_BatchConfig_eq (bs : Z) (it tt : option Callable) :
  new_BatchConfig bs it tt =
    if bs <=? 0 then
      Raise (ValueError ("`batch_size` must be > 0. Received value of "
                         +:+ str_int bs +:+ "."))
    else Ok {| batch_size := bs; input_transform := it; target_transform := tt |}.
Proof.
  unfold new_BatchConfig, __post_init__; simpl.
  destruct (bs <=? 0); reflexivity.
Qed.

(** Claim C5.  For every integer [bs], constructing a [BatchConfig]
    raises exactly when [bs ≤ 0]; the exception is then a [ValueError]
    whose message carries the decimal text of [bs]; and when [0 < bs] the
    construction returns a config that stores [bs] and both transforms
    unchanged. *)
Theorem new_BatchConfig_validates (bs : Z) (it tt : option Callable) :
  ((∃ e, new_BatchConfig bs it tt = Raise e) ↔ bs ≤ 0) ∧
  (∀ e, new_BatchConfig bs it tt = Raise e →
        e = ValueError ("`batch_size` must be > 0. Received value of "
                        +:+ str_int bs +:+ ".")) ∧
  ((∃ cfg, new_BatchConfig bs it tt = Ok cfg) ↔ 0 < bs) ∧
  (∀ cfg, new_BatchConfig bs it tt = Ok cfg →
          batch_size cfg = bs ∧ input_transform cfg = it ∧ target_transform cfg = tt).
Proof.
  rewrite new_BatchConfig_eq.
  destruct (Z.leb_spec bs 0) as [Hle | Hgt].
  - split; [| split; [| split]].
    + split; [intros _; exact Hle | intros _; eexists; reflexivity].
    + intros e Heq; congruence.
    + split; [intros [cfg Hcfg]; discriminate | lia].
    + discriminate.
  - split; [| split; [| split]].
    + split; [intros [e He]; discriminate | lia].
    + discriminate.
    + split; [intros _; exact Hgt | intros _; eexists; reflexivity].
    + intros cfg [= <-]; done.
Qed.

(** *** Running a method step by step *)

Lemma run_bind {A B : Type} (m : method A) (k : A → method B) self :
  (m ≫= k) self =
    match m self with
    | Outcome (Ok a) self' cs =>
        match k a self' with
        | Outcome r self'' cs' => Outcome r self'' (cs ++ cs')
        end
    | Outcome (Raise e) self' cs => Outcome (Raise e) self' cs
    end.
Proof. reflexivity. Qed.

Lemma run_bind_Ok {A B : Type} (m : method A) (k : A → method B) self self' a :
  m self = Outcome (Ok a) self' [] → (m ≫= k) self = k a self'.
Proof. intros Hm. rewrite run_bind, Hm. by destruct (k a self'). Qed.

Lemma run_bind_Raise {A B : Type} (m : method A) (k : A → method B) self self' cs e :
  m self = Outcome (Raise e) self' cs → (m ≫= k) self = Outcome (Raise e) self' cs.
Proof. intros Hm. by rewrite run_bind, Hm. Qed.

(** *** Construction *)

Lemma or_empty_lookup (cm : option (gmap (Phase * Split) BatchConfig)) phase split :
  or_empty cm !! (phase, split) = override cm phase split.
Proof.
  unfold or_empty, override. destruct cm as [m |]; simpl.
  - destruct (decide (m = ∅)) as [-> |]; [by rewrite lookup_empty | done].
  - apply lookup_empty.
Qed.

Lemma run_setitem_config_map key cfg self m :
  _config_map self = Some m →
  setitem_config_map key cfg self =
    Outcome (Ok ()) {| _search_split := _search_split self;
                       _config_map := Some (<[key := cfg]> m) |} [].
Proof.
  intros Hm. unfold setitem_config_map.
  rewrite (run_bind_Ok _ _ self self m); [reflexivity |].
  unfold getattr. by rewrite Hm.
Qed.

Lemma run_init_slot cm p s self m :
  _config_map self = Some m →
  init_slot (or_empty cm) p s self =
    match slot_config cm p s with
    | Ok cfg => Outcome (Ok ()) {| _search_split := _search_split self;
                                   _config_map := Some (<[(p, s) := cfg]> m) |} []
    | Raise e => Outcome (Raise e) self []
    end.
Proof.
  intros Hm. unfold init_slot, slot_config. rewrite or_empty_lookup.
  destruct (override cm p s) as [cfg |].
  - by apply run_setitem_config_map.
  - destruct (get_default_config p s) as [cfg | e].
    + rewrite (run_bind_Ok _ _ self self cfg); [by apply run_setitem_config_map | done].
    + by rewrite (run_bind_Raise _ _ self self [] e).
Qed.

(** The inner loop of [__init__], over the two splits of one phase. *)
Lemma run_split_loop cm p self m :
  _config_map self = Some m →
  for_each Split_members (λ s, init_slot (or_empty cm) p s) self =
    match slot_config cm p TRAIN with
    | Raise e => Outcome (Raise e) self []
    | Ok c1 =>
        match slot_config cm p VAL with
        | Raise e =>
            Outcome (Raise e) {| _search_split := _search_split self;
                                 _config_map := Some (<[(p, TRAIN) := c1]> m) |} []
        | Ok c2 =>
            Outcome (Ok ()) {| _search_split := _search_split self;
                               _config_map := Some (<[(p, VAL) := c2]> (<[(p, TRAIN) := c1]> m)) |} []
        end
    end.
Proof.
  intros Hm. unfold Split_members, for_each.
  pose proof (run_init_slot cm p TRAIN self m Hm) as H1.
  destruct (slot_config cm p TRAIN) as [c1 | e].
  2: { by apply run_bind_Raise. }
  erewrite run_bind_Ok by exact H1.
  pose proof (run_init_slot cm p VAL
                {| _search_split := _search_split self;
                   _config_map := Some (<[(p, TRAIN) := c1]> m) |} _ eq_refl) as H2.
  destruct (slot_config cm p VAL) as [c2 | e].
  2: { by apply run_bind_Raise. }
  by erewrite run_bind_Ok by exact H2.
Qed.

Lemma run___init__ ss cm :
  match constructed ss cm with
  | Ok self => __init__ ss cm fresh = Outcome (Ok ()) self []
  | Raise e => ∃ self, __init__ ss cm fresh = Outcome (Raise e) self []
  end.
Proof.
  unfold constructed, __init__.
  assert (Hstage : (match ss with
                    | None => static get_default_search_split
                    | Some x =>
                        if SFltb x float_zero || SFltb float_one x then
                          raise (ValueError ("`search_split` must be between 0 and 1 inclusive, received "
                                             +:+ str_float x))
                        else ret x
                    end) fresh = Outcome (resolved_split ss) fresh []).
  { unfold resolved_split. destruct ss as [x |]; [| done].
    by destruct (SFltb x float_zero || SFltb float_one x). }
  destruct (resolved_split ss) as [x | e]; cbn [mbind result_bind Py.bind].
  2: { eexists. by apply run_bind_Raise. }
  erewrite run_bind_Ok by exact Hstage.
  erewrite run_bind_Ok by reflexivity.
  erewrite run_bind_Ok by reflexivity.
  cbn [fresh _search_split _config_map].
  unfold Phase_members; cbn [for_each].
  match goal with
  | |- context [(?l ≫= ?k) ?self] =>
      pose proof (run_split_loop cm SEARCH self ∅ eq_refl) as H1
  end.
  cbn [_search_split] in H1.
  destruct (slot_config cm SEARCH TRAIN) as [c1 | e]; cbn [mbind result_bind Py.bind].
  2: { eexists. by apply run_bind_Raise. }
  destruct (slot_config cm SEARCH VAL) as [c2 | e]; cbn [mbind result_bind Py.bind].
  2: { eexists. by apply run_bind_Raise. }
  erewrite run_bind_Ok by exact H1.
  match goal with
  | |- context [(?l ≫= ?k) ?self] =>
      pose proof (run_split_loop cm EVAL self _ eq_refl) as H2
  end.
  cbn [_search_split] in H2.
  destruct (slot_config cm EVAL TRAIN) as [c3 | e]; cbn [mbind result_bind Py.bind].
  2: { eexists. by apply run_bind_Raise. }
  destruct (slot_config cm EVAL VAL) as [c4 | e]; cbn [mbind result_bind Py.bind].
  2: { eexists. by apply run_bind_Raise. }
  by erewrite run_bind_Ok by exact H2.
Qed.

Lemma new_DataloaderSpec_eq ss cm : new_DataloaderSpec ss cm = constructed ss cm.
Proof.
  unfold new_DataloaderSpec. pose proof (run___init__ ss cm) as Hrun.
  destruct (constructed ss cm) as [self | e].
  - by rewrite Hrun.
  - destruct Hrun as [self ->]. reflexivity.
Qed.

Lemma constructed_Ok ss cm self :
  new_DataloaderSpec ss cm = Ok self →
  ∃ x m, self = {| _search_split := Some x; _config_map := Some m |} ∧
         resolved_split ss = Ok x ∧
         ∀ p s, ∃ cfg, slot_config cm p s = Ok cfg ∧ m !! (p, s) = Some cfg.
Proof.
  rewrite new_DataloaderSpec_eq. unfold constructed.
  destruct (resolved_split ss) as [x | e]; [| discriminate].
  destruct (slot_config cm SEARCH TRAIN) as [c1 | e] eqn:H1; [| discriminate].
  destruct (slot_config cm SEARCH VAL) as [c2 | e] eqn:H2; [| discriminate].
  destruct (slot_config cm EVAL TRAIN) as [c3 | e] eqn:H3; [| discriminate].
  destruct (slot_config cm EVAL VAL) as [c4 | e] eqn:H4; [| discriminate].
  intros [= <-]. eexists _, _. split; [reflexivity |]. split; [reflexivity |].
  intros [] []; eexists; (split; [eassumption |]); by simplify_map_eq.
Qed.

Lemma constructed_total ss cm x :
  resolved_split ss = Ok x →
  (∀ p s, override cm p s = None → is_Ok (get_default_config p s)) →
  ∃ m, new_DataloaderSpec ss cm = Ok {| _search_split := Some x; _config_map := Some m |}.
Proof.
  intros Hx Hdef. rewrite new_DataloaderSpec_eq. unfold constructed. rewrite Hx.
  assert (Hslot : ∀ p s, is_Ok (slot_config cm p s)).
  { intros p s. unfold slot_config.
    destruct (override cm p s) eqn:Ho; [by eexists | by apply Hdef]. }
  destruct (Hslot SEARCH TRAIN) as [c1 ->], (Hslot SEARCH VAL) as [c2 ->],
    (Hslot EVAL TRAIN) as [c3 ->], (Hslot EVAL VAL) as [c4 ->].
  by eexists.
Qed.

Lemma run_get_config phase split self m :
  _config_map self = Some m →
  get_config phase split self =
    match m !! (phase, split) with
    | Some cfg => Outcome (Ok cfg) self []
    | None => Outcome (Raise (KeyError (key_repr (phase, split)))) self []
    end.
Proof.
  intros Hm. unfold get_config.
  rewrite (run_bind_Ok _ _ self self m); [by destruct (m !! (phase, split)) |].
  unfold getattr. by rewrite Hm.
Qed.

(** Claim C1.  On an instance built by the constructor, with a partial
    or omitted [config_map], [get_config] returns for each of the four
    slots: the caller's entry when the override has one, and otherwise
    what the subclass's [get_default_config] returned for the slot.  The
    lookup returns for every slot, the stored map having an entry for
    each. *)
Theorem get_config_override_or_default ss cm self phase split :
  new_DataloaderSpec ss cm = Ok self →
  (∃ m, _config_map self = Some m ∧ ∀ p s, is_Some (m !! (p, s))) ∧
  (∃ cfg, returned (get_config phase split self) = Ok cfg) ∧
  match override cm phase split with
  | Some cfg => returned (get_config phase split self) = Ok cfg
  | None => returned (get_config phase split self) = get_default_config phase split
  end.
Proof.
  intros Hnew. destruct (constructed_Ok _ _ _ Hnew) as (x & m & -> & _ & Hm).
  split; [| split].
  - exists m. split; [reflexivity |]. intros p s.
    destruct (Hm p s) as (cfg & _ & ->). by eexists.
  - destruct (Hm phase split) as (cfg & _ & Hcfg). exists cfg.
    rewrite (run_get_config _ _ _ m) by reflexivity. by rewrite Hcfg.
  - destruct (Hm phase split) as (cfg & Hslot & Hcfg).
    rewrite (run_get_config _ _ _ m) by reflexivity. rewrite Hcfg.
    unfold slot_config in Hslot.
    destruct (override cm phase split) as [cfg' |]; cbn [returned]; congruence.
Qed.

(** *** The search split *)

Lemma SFleb_not_SFltb (a b : float) : SFleb a b = true → SFltb b a = false.
Proof.
  unfold SFleb, SFltb.
  destruct a as [sa | sa | | sa ma ea], b as [sb | sb | | sb mb eb];
    try destruct sa; try destruct sb; cbn; try done.
  all: rewrite (Z.compare_antisym ea eb);
    destruct (ea ?= eb)%Z; cbn; try done;
    assert (Hanti : Pos.compare_cont Eq mb ma = CompOpp (Pos.compare_cont Eq ma mb))
      by (symmetry; apply (Pos.compare_cont_antisym ma mb Eq));
    rewrite Hanti; by destruct (Pos.compare_cont Eq ma mb).
Qed.

Lemma in_range_passes x :
  SFleb float_zero x && SFleb x float_one = true →
  SFltb x float_zero || SFltb float_one x = false.
Proof.
  intros [H0 H1]%andb_true_iff.
  by rewrite (SFleb_not_SFltb _ _ H0), (SFleb_not_SFltb _ _ H1).
Qed.

Lemma run_search_split self x :
  _search_split self = Some x → search_split self = Outcome (Ok x) self [].
Proof. intros Hx. unfold search_split, getattr. by rewrite Hx. Qed.

(** The range test on the values that binary64 comparison orders: when a
    caller-supplied [x] is below 0 or above 1, construction raises a
    [ValueError]; when [0 ≤ x ≤ 1], construction returns an instance (the
    subclass's default configs for the slots not overridden being
    available) whose [search_split] property returns exactly [x]. *)
Lemma search_split_validated x cm :
  (SFltb x float_zero || SFltb float_one x = true →
   new_DataloaderSpec (Some x) cm =
     Raise (ValueError ("`search_split` must be between 0 and 1 inclusive, received "
                        +:+ str_float x))) ∧
  (SFleb float_zero x && SFleb x float_one = true →
   (∀ p s, override cm p s = None → is_Ok (get_default_config p s)) →
   ∃ self, new_DataloaderSpec (Some x) cm = Ok self ∧
           returned (search_split self) = Ok x).
Proof.
  split.
  - intros Hout. rewrite new_DataloaderSpec_eq. unfold constructed, resolved_split.
    by rewrite Hout.
  - intros Hin Hdef.
    destruct (constructed_total (Some x) cm x) as [m Hm]; [| done |].
    { unfold resolved_split. by rewrite (in_range_passes _ Hin). }
    eexists. split; [exact Hm |]. by rewrite (run_search_split _ x).
Qed.

(** Claim C6.  The range test of [__init__] does not reject every
    supplied value outside [0, 1].  A NaN is not in [0, 1], yet it is
    neither below 0 nor above 1 in binary64 comparison: the test
    [search_split < 0 or search_split > 1] lets it through, construction
    returns an instance (the subclass's default configs for the slots not
    overridden being available) and the [search_split] property returns
    the NaN, where the message of the test says that the value must be
    between 0 and 1 inclusive. *)
Theorem nan_search_split_stored cm :
  (∀ p s, override cm p s = None → is_Ok (get_default_config p s)) →
  SFleb float_zero S754_nan && SFleb S754_nan float_one = false ∧
  SFltb S754_nan float_zero || SFltb float_one S754_nan = false ∧
  ∃ self, new_DataloaderSpec (Some S754_nan) cm = Ok self ∧
          returned (search_split self) = Ok S754_nan.
Proof.
  intros Hdef. split; [reflexivity |]. split; [reflexivity |].
  destruct (constructed_total (Some S754_nan) cm S754_nan eq_refl Hdef) as [m Hm].
  eexists. split; [exact Hm |]. by rewrite (run_search_split _ S754_nan).
Qed.

(** Claim C7.  When no [search_split] is supplied, an instance that
    construction returns has as its [search_split] what the subclass's
    [get_default_search_split] returned; and whatever value [x] that
    default returns, inside [0, 1] or not, construction returns an
    instance whose [search_split] is [x] (the subclass's default configs
    for the slots not overridden being available): the range test is not
    applied to it. *)
Theorem search_split_defaulted cm :
  (∀ self, new_DataloaderSpec None cm = Ok self →
           returned (search_split self) = get_default_search_split) ∧
  (∀ x, get_default_search_split = Ok x →
        (∀ p s, override cm p s = None → is_Ok (get_default_config p s)) →
        ∃ self, new_DataloaderSpec None cm = Ok self ∧
                returned (search_split self) = Ok x).
Proof.
  split.
  - intros self Hnew. destruct (constructed_Ok _ _ _ Hnew) as (x & m & -> & Hx & _).
    rewrite (run_search_split _ x) by reflexivity. by rewrite <- Hx.
  - intros x Hx Hdef.
    destruct (constructed_total None cm x Hx Hdef) as [m Hm].
    eexists. split; [exact Hm |]. by rewrite (run_search_split _ x).
Qed.

(** *** The factory *)

Lemma get_config_returned phase split self cfg :
  returned (get_config phase split self) = Ok cfg →
  get_config phase split self = Outcome (Ok cfg) self [].
Proof.
  unfold get_config. rewrite run_bind. unfold getattr.
  destruct (_config_map self) as [m |]; [| discriminate].
  destruct (m !! (phase, split)) as [cfg' |]; cbn; [| discriminate].
  by intros [= ->].
Qed.

Lemma search_split_returned self x :
  returned (search_split self) = Ok x → search_split self = Outcome (Ok x) self [].
Proof.
  unfold search_split, getattr.
  destruct (_search_split self) as [y |]; cbn; [| discriminate].
  by intros [= ->].
Qed.

(** What the merged options hold, key by key. *)
Lemma merged_lookup kwargs (bs : Z) (k : string) :
  (kwargs ∪ {[ "batch_size" := VInt bs ]}) !! k =
    match kwargs !! k with
    | Some v => Some v
    | None => if decide (k = "batch_size") then Some (VInt bs) else None
    end.
Proof.
  rewrite lookup_union. destruct (kwargs !! k) as [v |] eqn:Hk.
  - by destruct (({[ "batch_size" := VInt bs ]} : gmap string value) !! k).
  - rewrite left_id by apply _. rewrite lookup_singleton.
    destruct (decide ("batch_size" = k)), (decide (k = "batch_size")); congruence.
Qed.

(** [get_dataloader] on an instance whose slot config is [cfg] and whose
    split is [x], as one case analysis on what the collaborators return. *)
Lemma run_get_dataloader phase split path download kwargs self cfg x :
  returned (get_config phase split self) = Ok cfg →
  returned (search_split self) = Ok x →
  get_dataloader phase split path download kwargs self =
    let c := Call_load_dataset phase split path (input_transform cfg)
               (target_transform cfg) download (ds_args_for phase x) in
    let kwargs' := kwargs ∪ {[ "batch_size" := VInt (batch_size cfg) ]} in
    let construct d :=
      Outcome (dl ← DataLoader_new d kwargs'; Ok (Some dl)) self [c; Call_DataLoader d kwargs'] in
    match load_dataset self phase split path (input_transform cfg) (target_transform cfg)
            (ds_args_for phase x !! "search_split") download with
    | Raise e => Outcome (Raise e) self [c]
    | Ok dset =>
        if truthy dset then
          match dset with
          | Some d =>
              match kwargs !! "batch_size" with
              | Some v =>
                  if Py.ne v (VInt (batch_size cfg)) then
                    Outcome (Raise (ValueError
                               ("`batch_size` specified in kwargs (" +:+ str v
                                +:+ ") does not match `BatchConfig.batch_size` ("
                                +:+ str_int (batch_size cfg) +:+ ")."))) self [c]
                  else construct d
              | None => construct d
              end
          | None => Outcome (Ok None) self [c]
          end
        else Outcome (Ok None) self [c]
    end.
Proof.
  intros Hcfg%get_config_returned Hx%search_split_returned.
  unfold get_dataloader. erewrite run_bind_Ok by exact Hcfg.
  assert (Hargs : (if decide (phase = SEARCH)
                   then x ← search_split; ret ({[ "search_split" := x ]} : gmap string float)
                   else ret ∅) self = Outcome (Ok (ds_args_for phase x)) self []).
  { unfold ds_args_for. destruct (decide (phase = SEARCH)); [| done].
    by erewrite run_bind_Ok by exact Hx. }
  erewrite run_bind_Ok by exact Hargs.
  rewrite run_bind. unfold call_load_dataset.
  destruct (load_dataset _ _ _ _ _ _ _ _) as [dset | e]; [| done].
  destruct (truthy dset) eqn:Htruthy; cbn [negb]; [| done].
  destruct dset as [d |]; [| discriminate].
  assert (Hcons : ∀ kw, (dl ← call_DataLoader d kw; ret (Some dl)) self =
                        Outcome (dl ← DataLoader_new d kw; Ok (Some dl)) self
                                [Call_DataLoader d kw]).
  { intros kw. rewrite run_bind. unfold call_DataLoader.
    by destruct (DataLoader_new d kw). }
  destruct (kwargs !! "batch_size") as [v |].
  - destruct (Py.ne v (VInt (batch_size cfg))).
    + by erewrite run_bind_Raise by reflexivity.
    + erewrite run_bind_Ok by reflexivity. by rewrite Hcons.
  - erewrite run_bind_Ok by reflexivity. by rewrite Hcons.
Qed.

Lemma ds_args_for_search_split phase x :
  ds_args_for phase x !! "search_split" =
    match phase with SEARCH => Some x | EVAL => None end.
Proof. by destruct phase. Qed.

(** Claim C4.  On every call of [get_dataloader], the first call made is
    the one to [load_dataset], and it is the only call to it.  In the
    search phase its keyword arguments are exactly [search_split] with
    the instance's resolved split, which is what the parameter receives;
    in the evaluation phase no [search_split] argument is passed and the
    parameter takes its default [None].  The subclass's [load_dataset] is
    applied to exactly these arguments, and what that application returns
    or raises decides what [get_dataloader] returns or raises. *)
Theorem load_dataset_search_split_argument phase split path download kwargs self cfg x :
  returned (get_config phase split self) = Ok cfg →
  returned (search_split self) = Ok x →
  ∃ ds_args rest,
    calls (get_dataloader phase split path download kwargs self) =
      Call_load_dataset phase split path (input_transform cfg) (target_transform cfg)
        download ds_args :: rest ∧
    forallb is_Call_DataLoader rest = true ∧
    match phase with
    | SEARCH => ds_args = {[ "search_split" := x ]} ∧ ds_args !! "search_split" = Some x
    | EVAL => ds_args = ∅ ∧ ds_args !! "search_split" = None
    end ∧
    returned (get_dataloader phase split path download kwargs self) =
      match load_dataset self phase split path (input_transform cfg) (target_transform cfg)
              (match phase with SEARCH => Some x | EVAL => None end) download with
      | Raise e => Raise e
      | Ok None => Ok None
      | Ok (Some d) =>
          if truthy (Some d) then
            match kwargs !! "batch_size" with
            | Some v =>
                if Py.ne v (VInt (batch_size cfg)) then
                  Raise (ValueError ("`batch_size` specified in kwargs (" +:+ str v
                                     +:+ ") does not match `BatchConfig.batch_size` ("
                                     +:+ str_int (batch_size cfg) +:+ ")."))
                else
                  match DataLoader_new d (kwargs ∪ {[ "batch_size" := VInt (batch_size cfg) ]}) with
                  | Ok dl => Ok (Some dl)
                  | Raise e => Raise e
                  end
            | None =>
                match DataLoader_new d (kwargs ∪ {[ "batch_size" := VInt (batch_size cfg) ]}) with
                | Ok dl => Ok (Some dl)
                | Raise e => Raise e
                end
            end
          else Ok None
      end.
Proof.
  intros Hcfg Hx. rewrite (run_get_dataloader _ _ _ _ _ _ cfg x Hcfg Hx).
  exists (ds_args_for phase x). cbv zeta. rewrite ds_args_for_search_split.
  destruct (load_dataset _ _ _ _ _ _ _ _) as [[d |] | e];
    [destruct (truthy (Some d));
     [destruct (kwargs !! "batch_size") as [v |];
      [destruct (Py.ne v (VInt (batch_size cfg))) |] |] | |];
    cbn [calls returned mbind result_bind Py.bind]; eexists;
    (split; [reflexivity |]); (split; [reflexivity |]);
    (split; [by destruct phase | reflexivity]).
Qed.

(** [get_dataloader] when [load_dataset] returns something falsy. *)
Lemma get_dataloader_falsy phase split path download kwargs self cfg x dset :
  returned (get_config phase split self) = Ok cfg →
  returned (search_split self) = Ok x →
  load_dataset self phase split path (input_transform cfg) (target_transform cfg)
    (match phase with SEARCH => Some x | EVAL => None end) download = Ok dset →
  truthy dset = false →
  get_dataloader phase split path download kwargs self =
    Outcome (Ok None) self
      [Call_load_dataset phase split path (input_transform cfg) (target_transform cfg)
         download (ds_args_for phase x)].
Proof.
  intros Hcfg Hx Hload Hfalsy.
  rewrite (run_get_dataloader _ _ _ _ _ _ cfg x Hcfg Hx). cbv zeta.
  rewrite ds_args_for_search_split, Hload, Hfalsy. reflexivity.
Qed.

(** Claim C3.  When [load_dataset] returns [None], [get_dataloader]
    returns [None] whatever the extra options are, a conflicting
    [batch_size] included: nothing is raised, and the call to
    [load_dataset] is the only call made, so no dataloader is
    constructed. *)
Theorem absent_dataset_gives_absent_dataloader
    phase split path download kwargs self cfg x :
  returned (get_config phase split self) = Ok cfg →
  returned (search_split self) = Ok x →
  load_dataset self phase split path (input_transform cfg) (target_transform cfg)
    (match phase with SEARCH => Some x | EVAL => None end) download = Ok None →
  returned (get_dataloader phase split path download kwargs self) = Ok None ∧
  ∃ ds_args,
    calls (get_dataloader phase split path download kwargs self) =
      [Call_load_dataset phase split path (input_transform cfg) (target_transform cfg)
         download ds_args].
Proof.
  intros Hcfg Hx Hload.
  rewrite (get_dataloader_falsy _ _ _ _ _ _ cfg x None Hcfg Hx Hload eq_refl).
  split; [reflexivity | by eexists].
Qed.

(** Claim C10.  When what [load_dataset] returns is falsy, that is
    [None] or a dataset whose length is zero, [get_dataloader] returns
    [None], and the call to [load_dataset] is the only call made: no
    dataloader is constructed for an empty dataset. *)
Theorem empty_dataset_gives_absent_dataloader
    phase split path download kwargs self cfg x dset :
  returned (get_config phase split self) = Ok cfg →
  returned (search_split self) = Ok x →
  load_dataset self phase split path (input_transform cfg) (target_transform cfg)
    (match phase with SEARCH => Some x | EVAL => None end) download = Ok dset →
  (dset = None ∨ ∃ d, dset = Some d ∧ dataset_len d = Some 0%N) →
  returned (get_dataloader phase split path download kwargs self) = Ok None ∧
  ∃ ds_args,
    calls (get_dataloader phase split path download kwargs self) =
      [Call_load_dataset phase split path (input_transform cfg) (target_transform cfg)
         download ds_args].
Proof.
  intros Hcfg Hx Hload Hfalsy.
  assert (Htruthy : truthy dset = false).
  { destruct Hfalsy as [-> | (d & -> & Hlen)]; [reflexivity |].
    unfold truthy. by rewrite Hlen. }
  rewrite (get_dataloader_falsy _ _ _ _ _ _ cfg x dset Hcfg Hx Hload Htruthy).
  split; [reflexivity | by eexists].
Qed.

(** Claim C2, amended.  When [load_dataset] returns a dataset that is
    not empty (its class has no length, or its length is not zero) and
    the extra options hold a [batch_size] that differs from the resolved
    config's, [get_dataloader] raises a [ValueError] whose message
    contains the text of the caller's value and the text of the config's
    batch size; the call to [load_dataset] is the only call made, so no
    dataloader is constructed. *)
Theorem conflicting_batch_size_raises
    phase split path download kwargs self cfg x d v :
  returned (get_config phase split self) = Ok cfg →
  returned (search_split self) = Ok x →
  load_dataset self phase split path (input_transform cfg) (target_transform cfg)
    (match phase with SEARCH => Some x | EVAL => None end) download = Ok (Some d) →
  dataset_len d ≠ Some 0%N →
  kwargs !! "batch_size" = Some v →
  Py.ne v (VInt (batch_size cfg)) = true →
  returned (get_dataloader phase split path download kwargs self) =
    Raise (ValueError ("`batch_size` specified in kwargs (" +:+ str v
                       +:+ ") does not match `BatchConfig.batch_size` ("
                       +:+ str_int (batch_size cfg) +:+ ").")) ∧
  ∃ ds_args,
    calls (get_dataloader phase split path download kwargs self) =
      [Call_load_dataset phase split path (input_transform cfg) (target_transform cfg)
         download ds_args].
Proof.
  intros Hcfg Hx Hload Hlen Hv Hne.
  rewrite (run_get_dataloader _ _ _ _ _ _ cfg x Hcfg Hx). cbv zeta.
  rewrite ds_args_for_search_split, Hload, Hv, Hne.
  assert (Htruthy : truthy (Some d) = true).
  { unfold truthy. destruct (dataset_len d) as [[| n] |]; congruence. }
  rewrite Htruthy. split; [reflexivity | by eexists].
Qed.

Lemma DataLoader_call_inv phase split path download kwargs self cfg x d kwargs' :
  returned (get_config phase split self) = Ok cfg →
  returned (search_split self) = Ok x →
  Call_DataLoader d kwargs' ∈ calls (get_dataloader phase split path download kwargs self) →
  kwargs' = kwargs ∪ {[ "batch_size" := VInt (batch_size cfg) ]} ∧
  match kwargs !! "batch_size" with
  | Some v => Py.eq v (VInt (batch_size cfg)) = true
  | None => True
  end.
Proof.
  intros Hcfg Hx. rewrite (run_get_dataloader _ _ _ _ _ _ cfg x Hcfg Hx). cbv zeta.
  assert (Hno : Call_DataLoader d kwargs' ∉
            [Call_load_dataset phase split path (input_transform cfg) (target_transform cfg)
               download (ds_args_for phase x)]).
  { intros Hin. apply list_elem_of_singleton in Hin. discriminate. }
  assert (Hcons : ∀ d0, Call_DataLoader d kwargs' ∈
            [Call_load_dataset phase split path (input_transform cfg) (target_transform cfg)
               download (ds_args_for phase x);
             Call_DataLoader d0 (kwargs ∪ {[ "batch_size" := VInt (batch_size cfg) ]})] →
          kwargs' = kwargs ∪ {[ "batch_size" := VInt (batch_size cfg) ]}).
  { intros d0 Hin. apply elem_of_cons in Hin as [Hin | Hin]; [discriminate |].
    apply list_elem_of_singleton in Hin. by injection Hin as _ ->. }
  destruct (load_dataset _ _ _ _ _ _ _ _) as [[d0 |] | e]; cbn [calls]; try done.
  destruct (truthy (Some d0)); cbn [calls]; try done.
  destruct (kwargs !! "batch_size") as [v |]; [| by intros ?%Hcons].
  unfold Py.ne. destruct (Py.eq v (VInt (batch_size cfg))); cbn [negb calls]; [| done].
  by intros ?%Hcons.
Qed.


(** *** No writes after construction *)

Lemma read_only_ret {A : Type} (a : A) : read_only (ret a).
Proof. by intros self. Qed.

Lemma read_only_raise {A : Type} (e : exn) : read_only (raise (A := A) e).
Proof. by intros self. Qed.

Lemma read_only_getattr {A : Type} name (field : object → option A) :
  read_only (getattr name field).
Proof. intros self. unfold getattr. by destruct (field self). Qed.

Lemma read_only_call_load_dataset phase split path it tt download ds_args :
  read_only (call_load_dataset phase split path it tt download ds_args).
Proof. by intros self. Qed.

Lemma read_only_call_DataLoader d kwargs : read_only (call_DataLoader d kwargs).
Proof. by intros self. Qed.

Lemma read_only_bind {A B : Type} (m : method A) (k : A → method B) :
  read_only m → (∀ a, read_only (k a)) → read_only (m ≫= k).
Proof.
  intros Hm Hk self. rewrite run_bind. specialize (Hm self).
  destruct (m self) as [[a | e] self' cs]; cbn [self_after] in *; subst self'.
  - specialize (Hk a self). by destruct (k a self).
  - reflexivity.
Qed.

Lemma read_only_get_config phase split : read_only (get_config phase split).
Proof.
  unfold get_config. apply read_only_bind; [apply read_only_getattr |].
  intros m. destruct (m !! (phase, split)); [apply read_only_ret | apply read_only_raise].
Qed.

Lemma read_only_search_split : read_only search_split.
Proof. apply read_only_getattr. Qed.

Lemma read_only_get_dataloader phase split path download kwargs :
  read_only (get_dataloader phase split path download kwargs).
Proof.
  unfold get_dataloader.
  apply read_only_bind; [apply read_only_get_config | intros config].
  apply read_only_bind.
  { destruct (decide (phase = SEARCH)); [| apply read_only_ret].
    apply read_only_bind; [apply read_only_search_split | intros x; apply read_only_ret]. }
  intros ds_args.
  apply read_only_bind; [apply read_only_call_load_dataset | intros dset].
  destruct (negb (truthy dset)); [apply read_only_ret |].
  apply read_only_bind.
  { destruct (kwargs !! "batch_size") as [v |]; [| apply read_only_ret].
    destruct (Py.ne v (VInt (batch_size config)));
      [apply read_only_raise | apply read_only_ret]. }
  intros _. destruct dset as [d |]; [| apply read_only_ret].
  apply read_only_bind; [apply read_only_call_DataLoader | intros dl; apply read_only_ret].
Qed.

Lemma run_op_unchanged (o : op) self : run_op o self = self.
Proof.
  destruct o; cbn [run_op].
  - apply read_only_get_config.
  - apply read_only_search_split.
  - apply read_only_get_dataloader.
Qed.

(** Claim C9.  Whatever sequence of [get_config], [search_split] and
    [get_dataloader] calls is made on an instance, with whatever
    arguments and whether they return or raise, the instance afterwards
    is the instance before: the same resolved split and the same config
    map with the same configs. *)
Theorem operations_leave_instance_unchanged (ops : list op) self :
  run_ops ops self = self ∧
  _search_split (run_ops ops self) = _search_split self ∧
  _config_map (run_ops ops self) = _config_map self.
Proof.
  assert (Hrun : run_ops ops self = self).
  { unfold run_ops. induction ops as [| o ops IH] using rev_ind; [reflexivity |].
    rewrite foldl_app. cbn [foldl]. rewrite IH. apply run_op_unchanged. }
  by rewrite Hrun.
Qed.


(** *** Further properties of the factory *)

(** Property X1.  An exception raised by [load_dataset] leaves [get_dataloader]
    unchanged, whatever the extra options are: nothing else is called. *)
Theorem load_dataset_exception_propagates phase split path download kwargs self cfg x e :
  returned (get_config phase split self) = Ok cfg →
  returned (search_split self) = Ok x →
  load_dataset self phase split path (input_transform cfg) (target_transform cfg)
    (match phase with SEARCH => Some x | EVAL => None end) download = Raise e →
  returned (get_dataloader phase split path download kwargs self) = Raise e ∧
  calls (get_dataloader phase split path download kwargs self) =
    [Call_load_dataset phase split path (input_transform cfg) (target_transform cfg)
       download (match phase with SEARCH => {[ "search_split" := x ]} | EVAL => ∅ end)].
Proof.
  intros Hcfg Hx Hload.
  rewrite (run_get_dataloader _ _ _ _ _ _ cfg x Hcfg Hx). cbv zeta.
  rewrite ds_args_for_search_split, Hload. split; [reflexivity |].
  by destruct phase.
Qed.

(** Property X2.  When [get_config] raises (the attribute is unset, or the slot is
    missing from the stored map), [get_dataloader] raises the same
    exception before calling anything. *)
Theorem get_config_exception_propagates phase split path download kwargs self e :
  returned (get_config phase split self) = Raise e →
  get_dataloader phase split path download kwargs self = Outcome (Raise e) self [].
Proof.
  intros Hcfg. unfold get_dataloader. apply run_bind_Raise.
  unfold get_config in *. rewrite run_bind in *. unfold getattr in *.
  destruct (_config_map self) as [m |]; cbn in *; [| congruence].
  destruct (m !! (phase, split)) as [cfg |]; cbn in *; congruence.
Qed.

(** Property X3.  The dataloader constructor is invoked on a dataset exactly when
    [load_dataset] returned that dataset, it is not empty, and the extra
    options hold no [batch_size] or one equal to the config's. *)
Theorem DataLoader_called_iff phase split path download kwargs self cfg x d :
  returned (get_config phase split self) = Ok cfg →
  returned (search_split self) = Ok x →
  (∃ kwargs', Call_DataLoader d kwargs'
                ∈ calls (get_dataloader phase split path download kwargs self)) ↔
  (load_dataset self phase split path (input_transform cfg) (target_transform cfg)
     (match phase with SEARCH => Some x | EVAL => None end) download = Ok (Some d) ∧
   dataset_len d ≠ Some 0%N ∧
   match kwargs !! "batch_size" with
   | Some v => Py.eq v (VInt (batch_size cfg)) = true
   | None => True
   end).
Proof.
  intros Hcfg Hx. rewrite (run_get_dataloader _ _ _ _ _ _ cfg x Hcfg Hx). cbv zeta.
  rewrite ds_args_for_search_split.
  assert (Hno : ∀ kw, Call_DataLoader d kw ∉
            [Call_load_dataset phase split path (input_transform cfg) (target_transform cfg)
               download (ds_args_for phase x)]).
  { intros kw Hin. apply list_elem_of_singleton in Hin. discriminate. }
  assert (Htruthy : ∀ d0, truthy (Some d0) = true ↔ dataset_len d0 ≠ Some 0%N).
  { intros d0. unfold truthy. destruct (dataset_len d0) as [[| n] |]; split; congruence. }
  destruct (load_dataset _ _ _ _ _ _ _ _) as [[d0 |] | e]; cbn [calls].
  2, 3: split; [intros [kw Hin]; by apply Hno in Hin | intros [? _]; discriminate].
  destruct (truthy (Some d0)) eqn:Ht; cbn [calls].
  2: { split; [intros [kw Hin]; by apply Hno in Hin |].
       intros ([= ->] & Hlen & _). apply Htruthy in Hlen. congruence. }
  apply Htruthy in Ht.
  assert (Hcons : (∃ kw, Call_DataLoader d kw ∈
             [Call_load_dataset phase split path (input_transform cfg) (target_transform cfg)
                download (ds_args_for phase x);
              Call_DataLoader d0 (kwargs ∪ {[ "batch_size" := VInt (batch_size cfg) ]})])
           ↔ d0 = d).
  { split.
    - intros [kw Hin]. apply elem_of_cons in Hin as [Hin | Hin]; [discriminate |].
      apply list_elem_of_singleton in Hin. by injection Hin as ->.
    - intros ->. eexists. apply list_elem_of_further, list_elem_of_here. }
  destruct (kwargs !! "batch_size") as [v |].
  - unfold Py.ne. destruct (Py.eq v (VInt (batch_size cfg))); cbn [negb calls].
    + rewrite Hcons. split; [by intros -> | by intros ([= ->] & _)].
    + split; [intros [kw Hin]; by apply Hno in Hin | intros (_ & _ & ?); discriminate].
  - rewrite Hcons. split; [by intros -> | by intros ([= ->] & _)].
Qed.

(** Property X4.  With a dataset that is not empty and no conflicting [batch_size],
    [get_dataloader] returns the dataloader the constructor returns and
    raises what the constructor raises; it calls [load_dataset] and then
    the constructor, once each. *)
Theorem get_dataloader_constructs phase split path download kwargs self cfg x d :
  returned (get_config phase split self) = Ok cfg →
  returned (search_split self) = Ok x →
  load_dataset self phase split path (input_transform cfg) (target_transform cfg)
    (match phase with SEARCH => Some x | EVAL => None end) download = Ok (Some d) →
  dataset_len d ≠ Some 0%N →
  match kwargs !! "batch_size" with
  | Some v => Py.eq v (VInt (batch_size cfg)) = true
  | None => True
  end →
  ∃ kwargs',
    kwargs' = kwargs ∪ {[ "batch_size" := VInt (batch_size cfg) ]} ∧
    returned (get_dataloader phase split path download kwargs self) =
      match DataLoader_new d kwargs' with
      | Ok dl => Ok (Some dl)
      | Raise e => Raise e
      end ∧
    calls (get_dataloader phase split path download kwargs self) =
      [Call_load_dataset phase split path (input_transform cfg) (target_transform cfg)
         download (match phase with SEARCH => {[ "search_split" := x ]} | EVAL => ∅ end);
       Call_DataLoader d kwargs'].
Proof.
  intros Hcfg Hx Hload Hlen Hok. eexists. split; [reflexivity |].
  rewrite (run_get_dataloader _ _ _ _ _ _ cfg x Hcfg Hx). cbv zeta.
  rewrite ds_args_for_search_split, Hload.
  assert (Htruthy : truthy (Some d) = true).
  { unfold truthy. destruct (dataset_len d) as [[| n] |]; congruence. }
  rewrite Htruthy.
  assert (Hargs : ds_args_for phase x =
                  match phase with SEARCH => {[ "search_split" := x ]} | EVAL => ∅ end)
    by by destruct phase.
  rewrite Hargs.
  destruct (kwargs !! "batch_size") as [v |]; [| done].
  unfold Py.ne. by rewrite Hok.
Qed.

(** Property X5.  [get_dataloader] returns [None] only for a falsy dataset: when it
    returns [None], [load_dataset] returned [None] or an empty dataset. *)
Theorem absent_dataloader_iff phase split path download kwargs self cfg x :
  returned (get_config phase split self) = Ok cfg →
  returned (search_split self) = Ok x →
  returned (get_dataloader phase split path download kwargs self) = Ok None ↔
  ∃ dset,
    load_dataset self phase split path (input_transform cfg) (target_transform cfg)
      (match phase with SEARCH => Some x | EVAL => None end) download = Ok dset ∧
    (dset = None ∨ ∃ d, dset = Some d ∧ dataset_len d = Some 0%N).
Proof.
  intros Hcfg Hx. rewrite (run_get_dataloader _ _ _ _ _ _ cfg x Hcfg Hx). cbv zeta.
  rewrite ds_args_for_search_split.
  destruct (load_dataset _ _ _ _ _ _ _ _) as [[d |] | e]; cbn [returned].
  - unfold truthy. destruct (dataset_len d) as [[| n] |] eqn:Hlen.
    + split; [intros _ | done]. eexists. split; [reflexivity |]. right. by exists d.
    + split; [| intros (dset & [= <-] & [? | (d' & [= <-] & ?)]); congruence].
      destruct (kwargs !! "batch_size") as [v |];
        [destruct (Py.ne v (VInt (batch_size cfg))) |]; cbn [returned]; try done;
        destruct (DataLoader_new _ _); done.
    + split; [| intros (dset & [= <-] & [? | (d' & [= <-] & ?)]); congruence].
      destruct (kwargs !! "batch_size") as [v |];
        [destruct (Py.ne v (VInt (batch_size cfg))) |]; cbn [returned]; try done;
        destruct (DataLoader_new _ _); done.
  - split; [intros _ | done]. eexists. split; [reflexivity |]. by left.
  - split; [done | intros (dset & ? & _); discriminate].
Qed.

(** *** Further properties of construction *)

Lemma slot_config_overridden cm p s cfg :
  override cm p s = Some cfg → slot_config cm p s = Ok cfg.
Proof. intros Ho. unfold slot_config. by rewrite Ho. Qed.

(** Property X8.  When the caller's mapping has all four slots, the subclass's
    [get_default_config] plays no part: with a split that passes the range
    test, construction returns the instance that stores that split and the
    caller's mapping itself, whatever the defaults would return or raise. *)
Theorem full_override_stored_as_given x (m : gmap (Phase * Split) BatchConfig) :
  SFltb x float_zero || SFltb float_one x = false →
  (∀ p s, is_Some (m !! (p, s))) →
  new_DataloaderSpec (Some x) (Some m) =
    Ok {| _search_split := Some x; _config_map := Some m |}.
Proof.
  intros Hrange Hfull. rewrite new_DataloaderSpec_eq. unfold constructed, resolved_split.
  rewrite Hrange. cbn [mbind result_bind Py.bind].
  assert (Hslot : ∀ p s, ∃ cfg, m !! (p, s) = Some cfg ∧ slot_config (Some m) p s = Ok cfg).
  { intros p s. destruct (Hfull p s) as [cfg Hcfg]. exists cfg. split; [done |].
    by apply slot_config_overridden. }
  destruct (Hslot SEARCH TRAIN) as (c1 & H1 & ->), (Hslot SEARCH VAL) as (c2 & H2 & ->),
    (Hslot EVAL TRAIN) as (c3 & H3 & ->), (Hslot EVAL VAL) as (c4 & H4 & ->).
  cbn [mbind result_bind Py.bind]. do 3 f_equal.
  apply map_eq. intros [[] []]; by simplify_map_eq.
Qed.

Lemma resolved_split_cases ss e :
  resolved_split ss = Raise e →
  (∃ x, ss = Some x ∧ SFltb x float_zero || SFltb float_one x = true ∧
        e = ValueError ("`search_split` must be between 0 and 1 inclusive, received "
                        +:+ str_float x)) ∨
  (ss = None ∧ get_default_search_split = Raise e).
Proof.
  unfold resolved_split. destruct ss as [x |]; [| by right].
  destruct (SFltb x float_zero || SFltb float_one x) eqn:Hout; [| discriminate].
  intros [= <-]. left. by exists x.
Qed.

Lemma slot_config_Raise cm p s e :
  slot_config cm p s = Raise e →
  override cm p s = None ∧ get_default_config p s = Raise e.
Proof. unfold slot_config. by destruct (override cm p s). Qed.

(** Property X9.  Every exception construction raises is one of three: the
    [ValueError] of the range test on a supplied split, the exception
    [get_default_search_split] raised when no split was supplied, or the
    exception [get_default_config] raised for a slot the caller did not
    override. *)
Theorem construction_exception_sources ss cm e :
  new_DataloaderSpec ss cm = Raise e →
  (∃ x, ss = Some x ∧ SFltb x float_zero || SFltb float_one x = true ∧
        e = ValueError ("`search_split` must be between 0 and 1 inclusive, received "
                        +:+ str_float x)) ∨
  (ss = None ∧ get_default_search_split = Raise e) ∨
  (∃ p s, override cm p s = None ∧ get_default_config p s = Raise e).
Proof.
  rewrite new_DataloaderSpec_eq. unfold constructed.
  destruct (resolved_split ss) as [x | e'] eqn:Hsplit; cbn [mbind result_bind Py.bind].
  2: { intros [= <-]. destruct (resolved_split_cases _ _ Hsplit); auto. }
  intros Hraise. right. right.
  destruct (slot_config cm SEARCH TRAIN) as [c1 | e1] eqn:H1; cbn [mbind result_bind Py.bind] in Hraise.
  2: { injection Hraise as <-. eexists _, _. by apply slot_config_Raise. }
  destruct (slot_config cm SEARCH VAL) as [c2 | e2] eqn:H2; cbn [mbind result_bind Py.bind] in Hraise.
  2: { injection Hraise as <-. eexists _, _. by apply slot_config_Raise. }
  destruct (slot_config cm EVAL TRAIN) as [c3 | e3] eqn:H3; cbn [mbind result_bind Py.bind] in Hraise.
  2: { injection Hraise as <-. eexists _, _. by apply slot_config_Raise. }
  destruct (slot_config cm EVAL VAL) as [c4 | e4] eqn:H4; cbn [mbind result_bind Py.bind] in Hraise.
  2: { injection Hraise as <-. eexists _, _. by apply slot_config_Raise. }
  discriminate.
Qed.

Lemma constructed_is_Ok_iff ss cm :
  is_Ok (new_DataloaderSpec ss cm) ↔
  is_Ok (resolved_split ss) ∧ ∀ p s, is_Ok (slot_config cm p s).
Proof.
  split.
  - intros [self Hnew]. destruct (constructed_Ok _ _ _ Hnew) as (x & m & _ & Hx & Hm).
    split; [by exists x |]. intros p s. destruct (Hm p s) as (cfg & -> & _). by exists cfg.
  - intros [[x Hx] Hslot]. rewrite new_DataloaderSpec_eq. unfold constructed. rewrite Hx.
    destruct (Hslot SEARCH TRAIN) as [c1 ->], (Hslot SEARCH VAL) as [c2 ->],
      (Hslot EVAL TRAIN) as [c3 ->], (Hslot EVAL VAL) as [c4 ->].
    by eexists.
Qed.

Lemma slot_config_is_Ok_iff cm p s :
  is_Ok (slot_config cm p s) ↔ (override cm p s = None → is_Ok (get_default_config p s)).
Proof.
  unfold slot_config. destruct (override cm p s) as [cfg |].
  - split; [done | intros _; by exists cfg].
  - split; [by intros ? _ | by intros H; apply H].
Qed.

(** Property X10.  Construction returns an instance exactly when the split resolves (a
    supplied split passes the range test, or else
    [get_default_search_split] returns) and [get_default_config] returns
    for every slot the caller did not override. *)
Theorem construction_succeeds_iff ss cm :
  is_Ok (new_DataloaderSpec ss cm) ↔
  match ss with
  | Some x => SFltb x float_zero || SFltb float_one x = false
  | None => is_Ok get_default_search_split
  end ∧
  ∀ p s, override cm p s = None → is_Ok (get_default_config p s).
Proof.
  rewrite constructed_is_Ok_iff.
  assert (Hsplit : is_Ok (resolved_split ss) ↔
                   match ss with
                   | Some x => SFltb x float_zero || SFltb float_one x = false
                   | None => is_Ok get_default_search_split
                   end).
  { unfold resolved_split. destruct ss as [x |]; [| done].
    destruct (SFltb x float_zero || SFltb float_one x).
    - split; [intros [? ?]; discriminate | discriminate].
    - split; [done | intros _; by exists x]. }
  rewrite Hsplit. split; intros [H1 H2]; (split; [done |]); intros p s.
  - by apply slot_config_is_Ok_iff.
  - apply slot_config_is_Ok_iff, H2.
Qed.

Lemma not_SFltb_SFleb (a b : float) :
  a ≠ S754_nan → b ≠ S754_nan → SFltb b a = false → SFleb a b = true.
Proof.
  unfold SFleb, SFltb.
  destruct a as [sa | sa | | sa ma ea], b as [sb | sb | | sb mb eb];
    try destruct sa; try destruct sb; cbn; try done.
  all: rewrite (Z.compare_antisym ea eb);
    destruct (ea ?= eb)%Z; cbn; try done;
    assert (Hanti : Pos.compare_cont Eq mb ma = CompOpp (Pos.compare_cont Eq ma mb))
      by (symmetry; apply (Pos.compare_cont_antisym ma mb Eq));
    rewrite Hanti; by destruct (Pos.compare_cont Eq ma mb).
Qed.

(** Property X11.  An instance built with a supplied split stores that split, and the
    split is a NaN or lies in [0, 1]: the range test lets nothing else
    through. *)
Theorem supplied_search_split_stored_in_range x cm self :
  new_DataloaderSpec (Some x) cm = Ok self →
  returned (search_split self) = Ok x ∧
  (x = S754_nan ∨ SFleb float_zero x && SFleb x float_one = true).
Proof.
  intros Hnew. destruct (constructed_Ok _ _ _ Hnew) as (y & m & -> & Hy & _).
  unfold resolved_split in Hy.
  destruct (SFltb x float_zero || SFltb float_one x) eqn:Hout; [discriminate |].
  injection Hy as <-. split; [by rewrite (run_search_split _ x) |].
  apply orb_false_iff in Hout as [H0 H1].
  assert (Hcases : x = S754_nan ∨ x ≠ S754_nan) by (destruct x; auto).
  destruct Hcases as [-> | Hnan]; [by left | right].
  apply andb_true_iff. split; by apply not_SFltb_SFleb.
Qed.

(** Property X12.  When every config the caller supplied and every config the defaults
    return has a positive batch size, as the [BatchConfig] constructor
    ensures, then on an instance the constructor returned every config
    [get_config] returns has a positive batch size, and every dataloader
    [get_dataloader] constructs is given a [batch_size] equal to a
    positive integer. *)
Theorem batch_sizes_stay_positive ss cm self :
  new_DataloaderSpec ss cm = Ok self →
  (∀ p s cfg, override cm p s = Some cfg → 0 < batch_size cfg) →
  (∀ p s cfg, get_default_config p s = Ok cfg → 0 < batch_size cfg) →
  (∀ phase split cfg,
     returned (get_config phase split self) = Ok cfg → 0 < batch_size cfg) ∧
  (∀ phase split path download kwargs d kwargs',
     Call_DataLoader d kwargs' ∈ calls (get_dataloader phase split path download kwargs self) →
     ∃ v n, kwargs' !! "batch_size" = Some v ∧ Py.eq v (VInt n) = true ∧ 0 < n).
Proof.
  intros Hnew Hover Hdef.
  destruct (constructed_Ok _ _ _ Hnew) as (x & m & -> & _ & Hm).
  assert (Hpos : ∀ phase split cfg,
            returned (get_config phase split
                        {| _search_split := Some x; _config_map := Some m |}) = Ok cfg →
            0 < batch_size cfg).
  { intros phase split cfg. rewrite (run_get_config _ _ _ m) by reflexivity.
    destruct (Hm phase split) as (cfg' & Hslot & ->). cbn [returned]. intros [= <-].
    unfold slot_config in Hslot. destruct (override cm phase split) as [c |] eqn:Ho.
    - injection Hslot as <-. by eapply Hover.
    - by eapply Hdef. }
  split; [exact Hpos |].
  intros phase split path download kwargs d kwargs' Hin.
  destruct (Hm phase split) as (cfg & _ & Hcfg).
  assert (Hget : returned (get_config phase split
                   {| _search_split := Some x; _config_map := Some m |}) = Ok cfg).
  { rewrite (run_get_config _ _ _ m) by reflexivity. by rewrite Hcfg. }
  destruct (DataLoader_call_inv _ _ _ _ _ _ cfg x _ _ Hget eq_refl Hin) as [-> Hok].
  rewrite merged_lookup.
  destruct (kwargs !! "batch_size") as [v |].
  - exists v, (batch_size cfg). split; [done |]. split; [done | by eapply Hpos].
  - exists (VInt (batch_size cfg)), (batch_size cfg). cbn.
    split; [done |]. split; [apply Z.eqb_refl | by eapply Hpos].
Qed.

End Properties.

(** ** What each operation consults *)

Section Independence.
Context `{torch : Torch}.

Implicit Types (self : object) (phase : Phase) (split : Split).

(** Property X13.  Construction consults the subclass only for what it needs: two
    subclasses that agree on [get_default_config] for the slots the
    caller did not override, and on [get_default_search_split] when no
    split is supplied, give the same result, whatever else they do and
    whatever their [load_dataset] is.  An empty mapping and an omitted one
    give the same result as well. *)
Theorem construction_consults_only_needed_defaults (r1 r2 : Reference) ss cm1 cm2 :
  (∀ p s, override cm1 p s = override cm2 p s) →
  (ss = None →
   get_default_search_split (Reference := r1) = get_default_search_split (Reference := r2)) →
  (∀ p s, override cm1 p s = None →
          get_default_config (Reference := r1) p s = get_default_config (Reference := r2) p s) →
  new_DataloaderSpec (reference := r1) ss cm1 = new_DataloaderSpec (reference := r2) ss cm2.
Proof.
  intros Hover Hsplit Hdef. rewrite !new_DataloaderSpec_eq. unfold constructed.
  assert (Hres : resolved_split (reference := r1) ss = resolved_split (reference := r2) ss).
  { unfold resolved_split. destruct ss; [reflexivity | by apply Hsplit]. }
  assert (Hslot : ∀ p s, slot_config (reference := r1) cm1 p s
                         = slot_config (reference := r2) cm2 p s).
  { intros p s. unfold slot_config. rewrite <- Hover.
    destruct (override cm1 p s) eqn:Ho; [reflexivity | by apply Hdef]. }
  by rewrite Hres, !Hslot.
Qed.

Lemma get_config_outcome phase split self :
  ∃ r, get_config phase split self = Outcome r self [].
Proof.
  unfold get_config. rewrite run_bind. unfold getattr.
  destruct (_config_map self) as [m |]; [| by eexists].
  destruct (m !! (phase, split)); by eexists.
Qed.

Lemma search_split_outcome self : ∃ r, search_split self = Outcome r self [].
Proof. unfold search_split, getattr. destruct (_search_split self); by eexists. Qed.

(** Property X14.  [get_dataloader] consults the subclass only through [load_dataset]:
    the config comes from the stored map and the split from the stored
    attribute, never from the defaults.  Two subclasses whose
    [load_dataset] agree on the instance give the same outcome. *)
Theorem get_dataloader_consults_only_load_dataset (r1 r2 : Reference)
    phase split path download kwargs self :
  (∀ it tt ss,
     load_dataset (Reference := r1) self phase split path it tt ss download =
     load_dataset (Reference := r2) self phase split path it tt ss download) →
  get_dataloader (reference := r1) phase split path download kwargs self =
  get_dataloader (reference := r2) phase split path download kwargs self.
Proof.
  intros Hload. unfold get_dataloader.
  destruct (get_config_outcome phase split self) as [[cfg | e] Hcfg].
  2: { by rewrite !(run_bind_Raise _ _ self self [] e Hcfg). }
  rewrite !(run_bind_Ok _ _ self self cfg Hcfg).
  assert (Hargs : ∃ r, (if decide (phase = SEARCH)
                        then x ← search_split; ret ({[ "search_split" := x ]} : gmap string float)
                        else ret ∅) self = Outcome r self []).
  { destruct (decide (phase = SEARCH)) as [Hphase | Hphase]; [| by eexists].
    destruct (search_split_outcome self) as [[x | e] Hx].
    - eexists. by rewrite (run_bind_Ok _ _ self self x Hx).
    - eexists. by rewrite (run_bind_Raise _ _ self self [] e Hx). }
  destruct Hargs as [[ds_args | e'] Hargs].
  2: { by rewrite !(run_bind_Raise _ _ self self [] e' Hargs). }
  rewrite !(run_bind_Ok _ _ self self ds_args Hargs).
  rewrite !run_bind. unfold call_load_dataset. by rewrite Hload.
Qed.


End Independence.

(** ** The properties on the concrete subclass *)

Section Scenarios.
Import Cifar.

Example Cifar_constructed : new_DataloaderSpec None (Some overrides) = Ok spec.
Proof. vm_compute. reflexivity. Qed.

Example Cifar_constructed_all_train :
  new_DataloaderSpec (Some float_one) (Some overrides) = Ok spec_all_train.
Proof. vm_compute. reflexivity. Qed.

Lemma get_config_override_or_default_witness :
  new_DataloaderSpec None (Some overrides) = Ok spec ∧
  returned (get_config SEARCH TRAIN spec) = Ok config32 ∧
  returned (get_config SEARCH VAL spec) = get_default_config SEARCH VAL.
Proof.
  split; [vm_compute; reflexivity |]. split.
  - apply (get_config_override_or_default None (Some overrides) spec SEARCH TRAIN).
    vm_compute; reflexivity.
  - apply (get_config_override_or_default None (Some overrides) spec SEARCH VAL).
    vm_compute; reflexivity.
Defined.

Lemma new_BatchConfig_validates_witness :
  -3 ≤ 0 ∧
  (∃ e, new_BatchConfig (-3) (None : option Callable) None = Raise e) ∧
  0 < 32 ∧
  (∃ cfg, new_BatchConfig 32 (None : option Callable) None = Ok cfg).
Proof.
  split; [lia |]. split.
  - apply (new_BatchConfig_validates (-3) None None). lia.
  - split; [lia |]. apply (new_BatchConfig_validates 32 None None). lia.
Defined.

Lemma search_split_validated_witness :
  (SFltb five float_zero || SFltb float_one five = true ∧
   ∃ msg, new_DataloaderSpec (Some five) (Some overrides) = Raise (ValueError msg)) ∧
  (SFltb minus_half float_zero || SFltb float_one minus_half = true ∧
   ∃ msg, new_DataloaderSpec (Some minus_half) None = Raise (ValueError msg)) ∧
  (SFleb float_zero three_quarters && SFleb three_quarters float_one = true ∧
   ∃ self, new_DataloaderSpec (Some three_quarters) (Some overrides) = Ok self ∧
           returned (search_split self) = Ok three_quarters).
Proof.
  split; [| split].
  - split; [vm_compute; reflexivity |]. eexists.
    apply (search_split_validated five (Some overrides)). vm_compute; reflexivity.
  - split; [vm_compute; reflexivity |]. eexists.
    apply (search_split_validated minus_half None). vm_compute; reflexivity.
  - split; [vm_compute; reflexivity |].
    apply (search_split_validated three_quarters (Some overrides)).
    + vm_compute; reflexivity.
    + intros [] [] _; vm_compute; eexists; reflexivity.
Defined.

(** The concrete subclass is constructed with a NaN as its split. *)
Lemma nan_search_split_stored_witness :
  (∀ p s, override (Some overrides) p s = None → is_Ok (get_default_config p s)) ∧
  SFleb float_zero S754_nan && SFleb S754_nan float_one = false ∧
  ∃ self, new_DataloaderSpec (Some S754_nan) (Some overrides) = Ok self ∧
          returned (search_split self) = Ok S754_nan.
Proof.
  assert (Hdef : ∀ p s, override (Some overrides) p s = None →
                        is_Ok (get_default_config p s)).
  { intros [] [] _; vm_compute; eexists; reflexivity. }
  split; [exact Hdef |].
  destruct (nan_search_split_stored (Some overrides) Hdef) as (Hout & _ & Hself).
  split; [exact Hout | exact Hself].
Defined.

Lemma search_split_defaulted_witness :
  @get_default_search_split torch skewed = Ok five ∧
  ∃ self, @new_DataloaderSpec torch skewed None None = Ok self ∧
          returned (search_split self) = Ok five.
Proof.
  split; [reflexivity |].
  apply (proj2 (@search_split_defaulted torch skewed None) five).
  - reflexivity.
  - intros [] [] _; vm_compute; eexists; reflexivity.
Defined.

Lemma load_dataset_search_split_argument_witness :
  returned (get_config SEARCH TRAIN spec) = Ok config32 ∧
  returned (search_split spec) = Ok half ∧
  (∃ rest, calls (get_dataloader SEARCH TRAIN "/data" false ∅ spec) =
             Call_load_dataset SEARCH TRAIN "/data" None None false
               {[ "search_split" := half ]} :: rest) ∧
  returned (get_config EVAL VAL spec) = Ok config32 ∧
  (∃ rest, calls (get_dataloader EVAL VAL "/data" false ∅ spec) =
             Call_load_dataset EVAL VAL "/data" None None false ∅ :: rest) ∧
  load_dataset (Reference := Variations.offline) spec SEARCH TRAIN "/data"
    (input_transform config32) (target_transform config32) (Some half) false
    = Raise (OtherError "FileNotFoundError" "/data") ∧
  returned (get_dataloader (reference := Variations.offline)
              SEARCH TRAIN "/data" false ∅ spec)
    = Raise (OtherError "FileNotFoundError" "/data").
Proof.
  split; [vm_compute; reflexivity |]. split; [vm_compute; reflexivity |].
  split; [| split; [| split; [| split]]].
  - destruct (load_dataset_search_split_argument SEARCH TRAIN "/data" false ∅
                spec config32 half) as (ds_args & rest & Hcalls & _ & (-> & _) & _);
      [vm_compute; reflexivity | vm_compute; reflexivity |].
    exists rest. exact Hcalls.
  - vm_compute; reflexivity.
  - destruct (load_dataset_search_split_argument EVAL VAL "/data" false ∅
                spec config32 half) as (ds_args & rest & Hcalls & _ & (-> & _) & _);
      [vm_compute; reflexivity | vm_compute; reflexivity |].
    exists rest. exact Hcalls.
  - vm_compute; reflexivity.
  - destruct (load_dataset_search_split_argument (reference := Variations.offline)
                SEARCH TRAIN "/data" false ∅ spec config32 half)
      as (ds_args & rest & _ & _ & _ & Hret);
      [vm_compute; reflexivity | vm_compute; reflexivity |].
    exact Hret.
Defined.

(** With the whole training set used for training, the search validation
    set is absent; the conflicting batch size 7 goes unnoticed. *)
Lemma absent_dataset_gives_absent_dataloader_witness :
  returned (get_config SEARCH VAL spec_all_train) = Ok search_config ∧
  returned (search_split spec_all_train) = Ok float_one ∧
  load_dataset spec_all_train SEARCH VAL "/data" (input_transform search_config)
    (target_transform search_config) (Some float_one) false = Ok None ∧
  returned (get_dataloader SEARCH VAL "/data" false {[ "batch_size" := VInt 7 ]}
              spec_all_train) = Ok None.
Proof.
  split; [vm_compute; reflexivity |]. split; [vm_compute; reflexivity |].
  split; [vm_compute; reflexivity |].
  apply (absent_dataset_gives_absent_dataloader SEARCH VAL "/data" false
           {[ "batch_size" := VInt 7 ]} spec_all_train search_config float_one);
    vm_compute; reflexivity.
Defined.

(** The held-out evaluation set is a dataset of length zero. *)
Lemma empty_dataset_gives_absent_dataloader_witness :
  returned (get_config EVAL VAL spec) = Ok config32 ∧
  returned (search_split spec) = Ok half ∧
  load_dataset spec EVAL VAL "/data" (input_transform config32)
    (target_transform config32) None false = Ok (Some (MapStyle [])) ∧
  dataset_len (MapStyle []) = Some 0%N ∧
  returned (get_dataloader EVAL VAL "/data" false ∅ spec) = Ok None.
Proof.
  split; [vm_compute; reflexivity |]. split; [vm_compute; reflexivity |].
  split; [vm_compute; reflexivity |]. split; [vm_compute; reflexivity |].
  apply (empty_dataset_gives_absent_dataloader EVAL VAL "/data" false ∅ spec
           config32 half (Some (MapStyle []))).
  - vm_compute; reflexivity.
  - vm_compute; reflexivity.
  - vm_compute; reflexivity.
  - right. exists (MapStyle []). split; vm_compute; reflexivity.
Defined.

Lemma conflicting_batch_size_raises_witness :
  returned (get_config EVAL TRAIN spec) = Ok eval_config ∧
  returned (search_split spec) = Ok half ∧
  load_dataset spec EVAL TRAIN "/data" (input_transform eval_config)
    (target_transform eval_config) None false
    = Ok (Some (MapStyle [3; 1; 4; 1; 5; 9; 2; 6])) ∧
  dataset_len (MapStyle [3; 1; 4; 1; 5; 9; 2; 6]) ≠ Some 0%N ∧
  ({[ "batch_size" := VInt 64 ]} : gmap string value) !! "batch_size" = Some (VInt 64) ∧
  Py.ne (VInt 64) (VInt 96) = true ∧
  returned (get_dataloader EVAL TRAIN "/data" false {[ "batch_size" := VInt 64 ]} spec) =
    Raise (ValueError
      "`batch_size` specified in kwargs (64) does not match `BatchConfig.batch_size` (96).").
Proof.
  split; [vm_compute; reflexivity |]. split; [vm_compute; reflexivity |].
  split; [vm_compute; reflexivity |]. split; [vm_compute; discriminate |].
  split; [vm_compute; reflexivity |]. split; [vm_compute; reflexivity |].
  apply (conflicting_batch_size_raises EVAL TRAIN "/data" false
           {[ "batch_size" := VInt 64 ]} spec eval_config half
           (MapStyle [3; 1; 4; 1; 5; 9; 2; 6]) (VInt 64)).
  - vm_compute; reflexivity.
  - vm_compute; reflexivity.
  - vm_compute; reflexivity.
  - vm_compute; discriminate.
  - vm_compute; reflexivity.
  - vm_compute; reflexivity.
Defined.

(** Claim C2 as stated fails: the held-out evaluation set is a dataset,
    not [None], and the caller's batch size 64 differs from the
    config's 32, yet [get_dataloader] returns [None] and raises
    nothing, because the dataset is empty. *)
Lemma conflicting_batch_size_on_empty_dataset :
  returned (get_config EVAL VAL spec) = Ok config32 ∧
  load_dataset spec EVAL VAL "/data" (input_transform config32)
    (target_transform config32) None false = Ok (Some (MapStyle [])) ∧
  ({[ "batch_size" := VInt 64 ]} : gmap string value) !! "batch_size" = Some (VInt 64) ∧
  Py.ne (VInt 64) (VInt (batch_size config32)) = true ∧
  returned (get_dataloader EVAL VAL "/data" false {[ "batch_size" := VInt 64 ]} spec)
    = Ok None ∧
  ¬ ∃ e, returned (get_dataloader EVAL VAL "/data" false {[ "batch_size" := VInt 64 ]} spec)
         = Raise e.
Proof.
  split; [vm_compute; reflexivity |]. split; [vm_compute; reflexivity |].
  split; [vm_compute; reflexivity |]. split; [vm_compute; reflexivity |].
  assert (Hret : returned (get_dataloader EVAL VAL "/data" false
                             {[ "batch_size" := VInt 64 ]} spec) = Ok None)
    by (vm_compute; reflexivity).
  split; [exact Hret |]. intros [e He]. rewrite Hret in He. discriminate.
Qed.



(** *** The further properties on the concrete subclass *)

Import Variations.

Lemma load_dataset_exception_propagates_witness :
  returned (get_config EVAL TRAIN spec) = Ok eval_config ∧
  returned (search_split spec) = Ok half ∧
  load_dataset (Reference := offline) spec EVAL TRAIN "/data"
    (input_transform eval_config) (target_transform eval_config) None false
    = Raise (OtherError "FileNotFoundError" "/data") ∧
  returned (get_dataloader (reference := offline) EVAL TRAIN "/data" false
              {[ "batch_size" := VInt 64 ]} spec)
    = Raise (OtherError "FileNotFoundError" "/data").
Proof.
  split; [vm_compute; reflexivity |]. split; [vm_compute; reflexivity |].
  split; [vm_compute; reflexivity |].
  apply (load_dataset_exception_propagates (reference := offline) EVAL TRAIN "/data" false
           {[ "batch_size" := VInt 64 ]} spec eval_config half);
    vm_compute; reflexivity.
Defined.

Lemma get_config_exception_propagates_witness :
  returned (get_config SEARCH TRAIN fresh) = Raise (AttributeError "_config_map") ∧
  get_dataloader SEARCH TRAIN "/data" false ∅ fresh
    = Outcome (Raise (AttributeError "_config_map")) fresh [].
Proof.
  split; [vm_compute; reflexivity |].
  apply (get_config_exception_propagates SEARCH TRAIN "/data" false ∅ fresh).
  vm_compute; reflexivity.
Defined.

Lemma DataLoader_called_iff_witness :
  returned (get_config SEARCH TRAIN spec) = Ok config32 ∧
  returned (search_split spec) = Ok half ∧
  ((∃ kwargs', Call_DataLoader (MapStyle [3; 1; 4; 1; 5]) kwargs'
                 ∈ calls (get_dataloader SEARCH TRAIN "/data" false ∅ spec)) ↔
   (load_dataset spec SEARCH TRAIN "/data" (input_transform config32)
      (target_transform config32) (Some half) false = Ok (Some (MapStyle [3; 1; 4; 1; 5])) ∧
    dataset_len (MapStyle [3; 1; 4; 1; 5]) ≠ Some 0%N ∧
    match (∅ : gmap string value) !! "batch_size" with
    | Some v => Py.eq v (VInt (batch_size config32)) = true
    | None => True
    end)).
Proof.
  split; [vm_compute; reflexivity |]. split; [vm_compute; reflexivity |].
  apply (DataLoader_called_iff SEARCH TRAIN "/data" false ∅ spec config32 half);
    vm_compute; reflexivity.
Defined.

Lemma get_dataloader_constructs_witness :
  returned (get_config SEARCH TRAIN spec) = Ok config32 ∧
  returned (search_split spec) = Ok half ∧
  load_dataset spec SEARCH TRAIN "/data" (input_transform config32)
    (target_transform config32) (Some half) false = Ok (Some (MapStyle [3; 1; 4; 1; 5])) ∧
  dataset_len (MapStyle [3; 1; 4; 1; 5]) ≠ Some 0%N ∧
  ∃ kwargs',
    kwargs' = ({[ "shuffle" := VBool true ]} : gmap string value)
                ∪ {[ "batch_size" := VInt (batch_size config32) ]} ∧
    returned (get_dataloader SEARCH TRAIN "/data" false {[ "shuffle" := VBool true ]} spec) =
      match DataLoader_new (MapStyle [3; 1; 4; 1; 5]) kwargs' with
      | Ok dl => Ok (Some dl)
      | Raise e => Raise e
      end ∧
    calls (get_dataloader SEARCH TRAIN "/data" false {[ "shuffle" := VBool true ]} spec) =
      [Call_load_dataset SEARCH TRAIN "/data" (input_transform config32)
         (target_transform config32) false {[ "search_split" := half ]};
       Call_DataLoader (MapStyle [3; 1; 4; 1; 5]) kwargs'].
Proof.
  split; [vm_compute; reflexivity |]. split; [vm_compute; reflexivity |].
  split; [vm_compute; reflexivity |]. split; [vm_compute; discriminate |].
  apply (get_dataloader_constructs SEARCH TRAIN "/data" false {[ "shuffle" := VBool true ]}
           spec config32 half (MapStyle [3; 1; 4; 1; 5])).
  - vm_compute; reflexivity.
  - vm_compute; reflexivity.
  - vm_compute; reflexivity.
  - vm_compute; discriminate.
  - vm_compute. exact I.
Defined.

Lemma absent_dataloader_iff_witness :
  returned (get_config EVAL VAL spec) = Ok config32 ∧
  returned (search_split spec) = Ok half ∧
  (returned (get_dataloader EVAL VAL "/data" false ∅ spec) = Ok None ↔
   ∃ dset,
     load_dataset spec EVAL VAL "/data" (input_transform config32)
       (target_transform config32) None false = Ok dset ∧
     (dset = None ∨ ∃ d, dset = Some d ∧ dataset_len d = Some 0%N)).
Proof.
  split; [vm_compute; reflexivity |]. split; [vm_compute; reflexivity |].
  apply (absent_dataloader_iff EVAL VAL "/data" false ∅ spec config32 half);
    vm_compute; reflexivity.
Defined.

(** With all four slots overridden, even the subclass whose defaults
    raise can be constructed. *)
Lemma full_override_stored_as_given_witness :
  SFltb half float_zero || SFltb float_one half = false ∧
  (∀ p s, is_Some (all_slots !! (p, s))) ∧
  new_DataloaderSpec (reference := abstract_base) (Some half) (Some all_slots) =
    Ok {| _search_split := Some half; _config_map := Some all_slots |}.
Proof.
  assert (Hfull : ∀ p s, is_Some (all_slots !! (p, s))).
  { intros [] []; vm_compute; eexists; reflexivity. }
  split; [vm_compute; reflexivity |]. split; [exact Hfull |].
  apply (full_override_stored_as_given (reference := abstract_base) half all_slots).
  - vm_compute; reflexivity.
  - exact Hfull.
Defined.

Lemma construction_exception_sources_witness :
  new_DataloaderSpec (reference := abstract_base) (Some half) (Some overrides)
    = Raise NotImplementedError ∧
  ∃ p s, override (Some overrides) p s = None ∧
         get_default_config (Reference := abstract_base) p s = Raise NotImplementedError.
Proof.
  split; [vm_compute; reflexivity |].
  destruct (construction_exception_sources (reference := abstract_base)
              (Some half) (Some overrides) NotImplementedError)
    as [(x & _ & _ & Hx) | [[Hss _] | Hslot]].
  - vm_compute; reflexivity.
  - discriminate.
  - discriminate.
  - exact Hslot.
Defined.

Lemma construction_succeeds_iff_witness :
  is_Ok (new_DataloaderSpec (Some three_quarters) (Some overrides)).
Proof.
  apply (construction_succeeds_iff (Some three_quarters) (Some overrides)). split.
  - vm_compute; reflexivity.
  - intros [] [] _; vm_compute; eexists; reflexivity.
Defined.

Lemma supplied_search_split_stored_in_range_witness :
  new_DataloaderSpec (Some float_one) (Some overrides) = Ok spec_all_train ∧
  returned (search_split spec_all_train) = Ok float_one ∧
  (float_one = S754_nan ∨ SFleb float_zero float_one && SFleb float_one float_one = true).
Proof.
  split; [vm_compute; reflexivity |].
  apply (supplied_search_split_stored_in_range float_one (Some overrides) spec_all_train).
  vm_compute; reflexivity.
Defined.

Lemma batch_sizes_stay_positive_witness :
  new_DataloaderSpec None (Some overrides) = Ok spec ∧
  (∀ phase split cfg,
     returned (get_config phase split spec) = Ok cfg → 0 < batch_size cfg).
Proof.
  split; [vm_compute; reflexivity |].
  apply (batch_sizes_stay_positive None (Some overrides) spec).
  - vm_compute; reflexivity.
  - intros [] [] cfg Hcfg; vm_compute in Hcfg; try discriminate;
      injection Hcfg as <-; reflexivity.
  - intros [] [] cfg Hcfg; vm_compute in Hcfg; injection Hcfg as <-; reflexivity.
Defined.

(** The subclass with the skewed default split builds the same instance
    once the split is supplied. *)
Lemma construction_consults_only_needed_defaults_witness :
  new_DataloaderSpec (reference := reference) (Some half) (Some overrides)
    = new_DataloaderSpec (reference := skewed) (Some half) (Some overrides).
Proof.
  apply (construction_consults_only_needed_defaults reference skewed
           (Some half) (Some overrides) (Some overrides)).
  - reflexivity.
  - discriminate.
  - reflexivity.
Defined.

Lemma get_dataloader_consults_only_load_dataset_witness :
  get_dataloader (reference := reference) SEARCH VAL "/data" false ∅ spec
    = get_dataloader (reference := skewed) SEARCH VAL "/data" false ∅ spec.
Proof.
  apply (get_dataloader_consults_only_load_dataset reference skewed
           SEARCH VAL "/data" false ∅ spec).
  reflexivity.
Defined.


End Scenarios.
